(** * adk-made-simple: the sentiment analyzer's task manager, its A2A server
      entry point and the sentiment dashboard, embedded in Rocq.

    Sources covered:
    - [agents/sentiment_analyzer/task_manager.py]  ([Module TaskManager])
    - [agents/sentiment_analyzer/__main__.py]      ([Module Main])
    - [apps/a2a_sentiment_app.py]                  ([Module App])
    - [apps/unified_dashboard.py]                  ([Module Dashboard])

    Python [str] values are sequences of Unicode code points, so a string is
    a [list N] here; the pieces of the Python runtime the sources call
    ([str.strip], [str.split], [re.search], [int], exceptions) are modelled in
    [Module Py] and [Module Re]. *)

From Stdlib Require Import NArith ZArith Lia Ascii String List Bool
  DecimalString.
From stdpp Require Import base option list gmap.

#[local] Open Scope N_scope.
#[local] Unset Default Proof Using.

(* ===================================================================== *)
(** * The Python runtime used by the sources                              *)
(* ===================================================================== *)

Module Py.

(** A code point, and a Python [str]. *)
Abbreviation char := N.
Abbreviation str := (list N).

(** The [str] denoted by an ASCII literal of the source. *)
Definition lit (t : string) : str := map N_of_ascii (list_ascii_of_string t).
Arguments lit : simpl never.

Definition nl : char := 10.

(** ** Exceptions and fallible computations *)

(** An exception object: [type(e).__name__], the qualified names of the
    classes [type(e)] derives from (itself included), and [str(e)]. *)
Record exn := Exn {
  exn_name : str;
  exn_classes : list str;
  exn_str : str
}.

(** [isinstance(e, cls)], which is what an [except cls] clause tests. *)
Definition isinstance (e : exn) (cls : str) : bool :=
  bool_decide (cls ∈ exn_classes e).

Inductive result (A : Type) : Type :=
| Ok (a : A)
| Raise (e : exn).
Arguments Ok {A} a.
Arguments Raise {A} e.

#[export] Instance result_ret : MRet result := fun _ a => Ok a.

#[export] Instance result_bind : MBind result := fun _ _ f m =>
  match m with
  | Ok a => f a
  | Raise e => Raise e
  end.

Definition IndexError : exn :=
  Exn (lit "IndexError")
      [lit "IndexError"; lit "LookupError"; lit "Exception"; lit "BaseException"]
      (lit "list index out of range").

Definition ValueError (msg : str) : exn :=
  Exn (lit "ValueError")
      [lit "ValueError"; lit "Exception"; lit "BaseException"] msg.

Definition AttributeError (msg : str) : exn :=
  Exn (lit "AttributeError")
      [lit "AttributeError"; lit "Exception"; lit "BaseException"] msg.

(** [l[i]] for a non-negative index. *)
Definition index {A : Type} (l : list A) (i : nat) : result A :=
  match l !! i with
  | Some a => Ok a
  | None => Raise IndexError
  end.

(** [l[-n:]]. *)
Definition last_n {A : Type} (n : nat) (l : list A) : list A :=
  drop (length l - n) l.

(** ** Unicode character data

    Two tables of the Unicode character database are too large to write
    down here and differ between Python versions: the decimal-digit table
    ([unicodedata.decimal], the characters [\d] and [int] accept) and the
    full lower-case mapping of [str.lower].  They are an interface; what is
    required of an implementation is only what every version agrees on. *)

Definition ascii_lower (c : char) : char :=
  if (65 <=? c) && (c <=? 90) then c + 32 else c.

Definition is_ascii_digit (c : char) : bool := (48 <=? c) && (c <=? 57).

Definition ascii_decimal (c : char) : option N :=
  if is_ascii_digit c then Some (c - 48) else None.

(** The number a string of ASCII digits denotes. *)
Definition decimal_value (ds : str) : Z :=
  foldl (fun acc c => (10 * acc + Z.of_N (c - 48))%Z) 0%Z ds.

Class UnicodeData := {
  (** [unicodedata.decimal(c)], [None] when [c] is not in category Nd *)
  decimal : char -> option N;
  (** the lower-case mapping of one code point, as [str.lower] applies it *)
  lower_char : char -> list char;
  decimal_basic_latin : forall c, c < 128 -> decimal c = ascii_decimal c;
  lower_basic_latin : forall c, c < 128 -> lower_char c = [ascii_lower c];
  (** U+0130 LATIN CAPITAL LETTER I WITH DOT ABOVE lowers to i + U+0307 *)
  lower_0130 : lower_char 0x130 = [0x69; 0x307];
  (** U+0131 dotless i and U+017F long s are lower-case letters *)
  lower_0131 : lower_char 0x131 = [0x131];
  lower_017F : lower_char 0x17F = [0x17F]
}.

(** The tables cut down to Basic Latin and the three letters above: enough
    to run the model on texts made of those characters. *)
Definition basic_decimal (c : char) : option N :=
  if c <? 128 then ascii_decimal c else None.

Definition basic_lower_char (c : char) : list char :=
  if c <? 128 then [ascii_lower c]
  else if c =? 0x130 then [0x69; 0x307] else [c].

(** ** [str] methods *)

(** [c.isspace()]: the characters [str.strip()] removes. *)
Definition isspace (c : char) : bool :=
  ((9 <=? c) && (c <=? 13)) || ((28 <=? c) && (c <=? 32))
  || (c =? 0x85) || (c =? 0xA0) || (c =? 0x1680)
  || ((0x2000 <=? c) && (c <=? 0x200A))
  || (c =? 0x2028) || (c =? 0x2029) || (c =? 0x202F) || (c =? 0x205F)
  || (c =? 0x3000).

Fixpoint lstrip (s : str) : str :=
  match s with
  | c :: s' => if isspace c then lstrip s' else s
  | [] => []
  end.

Definition rstrip (s : str) : str := reverse (lstrip (reverse s)).

Definition strip (s : str) : str := rstrip (lstrip s).

(** [sep in s] for a one-character [sep]. *)
Definition contains (sep : char) (s : str) : bool :=
  existsb (N.eqb sep) s.

(** [s.split(sep)] for a one-character [sep]: never empty. *)
Fixpoint split (sep : char) (s : str) : list str :=
  match s with
  | [] => [[]]
  | c :: s' =>
      if c =? sep then [] :: split sep s'
      else match split sep s' with
           | w :: ws => (c :: w) :: ws
           | [] => [[c]]
           end
  end.

(** [s.split(sep, 1)] for a one-character [sep]: one or two pieces. *)
Fixpoint split1 (sep : char) (s : str) : list str :=
  match s with
  | [] => [[]]
  | c :: s' =>
      if c =? sep then [[]; s']
      else match split1 sep s' with
           | w :: ws => (c :: w) :: ws
           | [] => [[c]]
           end
  end.

(** [s.endswith(c)] for a one-character suffix. *)
Definition endswith (c : char) (s : str) : bool :=
  match last s with
  | Some d => d =? c
  | None => false
  end.

(** [s.lower()].  The mapping is applied code point by code point; the one
    context-sensitive rule of [str.lower] (final sigma) concerns U+03A3,
    which no string lowered by the sources can contain. *)
Definition lower `{UnicodeData} (s : str) : str :=
  flat_map lower_char s.

(** A Python truth test on a [str]. *)
Definition truthy (s : str) : bool :=
  match s with [] => false | _ => true end.

(** ** [int(s)] for a [str] argument, base 10

    The argument is stripped of white space, an optional sign is read, and
    what remains must be decimal digits, with single underscores allowed
    between digits.  A string of ASCII characters is scanned with the C
    locale's white space; any other string has its characters from U+007F
    on translated first, Unicode white space to a space and decimal digits
    to ASCII digits, while the characters below U+007F stay as they are and
    are scanned like those of an ASCII string.  [max_str_digits] is
    [sys.get_int_max_str_digits()], 0 when there is no limit. *)

Definition c_isspace (c : char) : bool :=
  ((9 <=? c) && (c <=? 13)) || (c =? 32).

Definition int_isspace (s : str) : char -> bool :=
  if forallb (fun c => c <? 128) s then c_isspace
  else fun c => if c <? 127 then c_isspace c else isspace c.

Fixpoint int_lstrip (sp : char -> bool) (s : str) : str :=
  match s with
  | c :: s' => if sp c then int_lstrip sp s' else s
  | [] => []
  end.

Definition int_strip (sp : char -> bool) (s : str) : str :=
  reverse (int_lstrip sp (reverse (int_lstrip sp s))).

(** The digits after the sign: the value, if the text is well formed. *)
Fixpoint int_digits `{UnicodeData} (s : str) (acc : Z) (after_digit : bool)
  : option Z :=
  match s with
  | [] => if after_digit then Some acc else None
  | c :: s' =>
      if c =? 95 (* _ *) then
        if after_digit then int_digits s' acc false else None
      else
        match decimal c with
        | Some d => int_digits s' (10 * acc + Z.of_N d)%Z true
        | None => None
        end
  end.

Definition count_digits `{UnicodeData} (s : str) : N :=
  N.of_nat (length (List.filter (fun c => bool_decide (is_Some (decimal c))) s)).

(** [str(n)] *)
Definition str_of_N (n : N) : str :=
  lit (NilEmpty.string_of_uint (N.to_uint n)).

(** The message of this one is cut short: the interpreter goes on to quote
    the argument. *)
Definition invalid_literal : exn :=
  ValueError (lit "invalid literal for int() with base 10").

Definition exceeds_limit (max_str_digits digits : N) : exn :=
  ValueError
    (lit "Exceeds the limit (" ++ str_of_N max_str_digits
     ++ lit " digits) for integer string conversion: value has "
     ++ str_of_N digits
     ++ lit " digits; use sys.set_int_max_str_digits() to increase the limit").

Definition int_of_str `{UnicodeData} (max_str_digits : N) (s : str)
  : result Z :=
  let body := int_strip (int_isspace s) s in
  let '(negative, digits) :=
    match body with
    | 45 (* - *) :: rest => (true, rest)
    | 43 (* + *) :: rest => (false, rest)
    | _ => (false, body)
    end in
  match int_digits digits 0%Z false with
  | Some v =>
      if (640 <? count_digits digits) && (0 <? max_str_digits)
         && (max_str_digits <? count_digits digits)
      then Raise (exceeds_limit max_str_digits (count_digits digits))
      else Ok (if negative then (- v)%Z else v)
  | None => Raise invalid_literal
  end.

End Py.

(* ===================================================================== *)
(** * Regular expressions: the fragment of [re] the sources use           *)
(* ===================================================================== *)

Module Re.
Import Py.

(** The flags of [re.search] that occur in the sources. *)
Record flags := Flags { IGNORECASE : bool; DOTALL : bool }.

(** One-character patterns. *)
Inductive cclass :=
| Lit (c : char)   (** a literal character of the pattern (all are ASCII) *)
| Digit            (** [\d] *)
| AnyChar.         (** [.] *)

(** Patterns.  Repetition is only ever applied to a one-character pattern
    in the sources. *)
Inductive regex :=
| Eps
| One (c : cclass)
| Star (c : cclass)        (** [c*], greedy *)
| LazyStar (c : cclass)    (** [c*?] *)
| Dollar                   (** [$], without [re.MULTILINE] *)
| Seq (r1 r2 : regex)
| Alt (r1 r2 : regex)      (** [r1|r2], tried left to right *)
| Group (r : regex)        (** [(r)]: capture group 1 *)
| LookAhead (r : regex).   (** [(?=r)] *)

Infix "⋅" := Seq (at level 41, right associativity).
Infix "∣" := Alt (at level 42, right associativity).

(** The literal text [t] as a pattern. *)
Definition literal (t : string) : regex :=
  foldr (fun c r => One (Lit c) ⋅ r) Eps (lit t).

Definition chr (a : ascii) : char := N_of_ascii a.
Arguments chr : simpl never.

(** [c+] *)
Definition Plus (c : cclass) : regex := One c ⋅ Star c.

(** Whether a successful match of the pattern always sets group 1. *)
Fixpoint captures (r : regex) : bool :=
  match r with
  | Group _ => true
  | Seq r1 r2 => captures r1 || captures r2
  | Alt r1 r2 => captures r1 && captures r2
  | _ => false
  end.

(** A match object: [m.group(0)] and [m.group(1)] ([None] when group 1 took
    no part in the match). *)
Record match_object := Match { group0 : str; group1 : option str }.

Definition iscased (p : char) : bool :=
  ((65 <=? p) && (p <=? 90)) || ((97 <=? p) && (p <=? 122)).

(** Whether [c] matches the ASCII literal [p] under [re.IGNORECASE].  A
    literal that is not a letter matches only itself.  A letter matches
    the characters whose simple lower-case mapping is its own lower case
    (among them U+0130 for i and U+212A KELVIN SIGN for k) and the
    lower-case letters [re] declares equivalent to it: U+0131 dotless i
    for i, U+017F long s for s. *)
Definition lit_ignorecase (p c : char) : bool :=
  if iscased p then
    let lo := ascii_lower p in
    (ascii_lower c =? lo)
    || ((lo =? 0x69) && ((c =? 0x130) || (c =? 0x131)))
    || ((lo =? 0x73) && (c =? 0x17F))
    || ((lo =? 0x6B) && (c =? 0x212A))
  else c =? p.

Section Matcher.
Context `{UnicodeData}.
Variable fl : flags.

Definition cmatch (cl : cclass) (c : char) : bool :=
  match cl with
  | Lit p => if IGNORECASE fl then lit_ignorecase p c else c =? p
  | Digit => bool_decide (is_Some (decimal c))
  | AnyChar => DOTALL fl || negb (c =? nl)
  end.

(** [$]: at the end of the string, or just before a newline that ends it. *)
Definition at_dollar (s : str) : bool :=
  match s with
  | [] => true
  | [c] => c =? nl
  | _ => false
  end.

(** The backtracking matcher, in continuation-passing style: the
    continuation [k] receives the text just matched and the rest of the
    input, and answers [None] to make the matcher try its next choice. *)

Fixpoint star {A : Type} (cl : cclass) (s : str) (k : str -> str -> option A)
  : option A :=
  match s with
  | c :: s' =>
      if cmatch cl c then
        match star cl s' (fun w r => k (c :: w) r) with
        | Some a => Some a
        | None => k [] s
        end
      else k [] s
  | [] => k [] s
  end.

Fixpoint lazy_star {A : Type} (cl : cclass) (s : str) (k : str -> str -> option A)
  : option A :=
  match k [] s with
  | Some a => Some a
  | None =>
      match s with
      | c :: s' =>
          if cmatch cl c then lazy_star cl s' (fun w r => k (c :: w) r)
          else None
      | [] => None
      end
  end.

Fixpoint run {A : Type} (r : regex) (s : str) (g : option str)
    (k : str -> str -> option str -> option A) : option A :=
  match r with
  | Eps => k [] s g
  | One cl =>
      match s with
      | c :: s' => if cmatch cl c then k [c] s' g else None
      | [] => None
      end
  | Star cl => star cl s (fun w r => k w r g)
  | LazyStar cl => lazy_star cl s (fun w r => k w r g)
  | Dollar => if at_dollar s then k [] s g else None
  | Seq r1 r2 =>
      run r1 s g (fun w1 s1 g1 =>
        run r2 s1 g1 (fun w2 s2 g2 => k (w1 ++ w2) s2 g2))
  | Alt r1 r2 =>
      match run r1 s g k with
      | Some a => Some a
      | None => run r2 s g k
      end
  | Group r' => run r' s g (fun w s' _ => k w s' (Some w))
  | LookAhead r' =>
      match run r' s g (fun _ _ g' => Some g') with
      | Some g' => k [] s g'
      | None => None
      end
  end.

(** A match of [r] starting at the head of [s]. *)
Definition match_here (r : regex) (s : str) : option match_object :=
  run r s None (fun w _ g => Some (Match w g)).

(** [re.search]: the match at the leftmost position that has one; the
    positions are the suffixes of the text, the empty one included. *)
Fixpoint search (r : regex) (s : str) : option match_object :=
  match match_here r s with
  | Some m => Some m
  | None =>
      match s with
      | [] => None
      | _ :: s' => search r s'
      end
  end.

End Matcher.

End Re.

(* ===================================================================== *)
(** * agents/sentiment_analyzer/task_manager.py                           *)
(* ===================================================================== *)

Module TaskManager.
Import Py Re.

Definition A2A_APP_NAME : str := lit "sentiment_analyzer_a2a_app".

(** The dict [_extract_sentiment_data] builds: its four keys are fixed. *)
Record sentiment_data := SentimentData {
  sentiment : str;
  confidence : str;
  key_markers : list str;
  analysis : str
}.

Definition default_sentiment_data : sentiment_data :=
  SentimentData (lit "unknown") (lit "0%") [] (lit "No analysis available").

(** [r"Overall Sentiment: *(positive|negative|neutral)"] *)
Definition sentiment_re : regex :=
  literal "Overall Sentiment:" ⋅ Star (Lit (chr " ")) ⋅
  Group (literal "positive" ∣ literal "negative" ∣ literal "neutral").

(** [r"Confidence: *(\d+%|\d+)"] *)
Definition confidence_re : regex :=
  literal "Confidence:" ⋅ Star (Lit (chr " ")) ⋅
  Group (Plus Digit ⋅ One (Lit (chr "%")) ∣ Plus Digit).

(** [r"Key Markers: *(.*?)(?=\n\n|\n-|$)"] *)
Definition markers_re : regex :=
  literal "Key Markers:" ⋅ Star (Lit (chr " ")) ⋅ Group (LazyStar AnyChar) ⋅
  LookAhead (One (Lit nl) ⋅ One (Lit nl) ∣ One (Lit nl) ⋅ One (Lit (chr "-"))
             ∣ Dollar).

(** [r"Analysis: *(.*?)(?=\n\n|$)"] *)
Definition analysis_re : regex :=
  literal "Analysis:" ⋅ Star (Lit (chr " ")) ⋅ Group (LazyStar AnyChar) ⋅
  LookAhead (One (Lit nl) ⋅ One (Lit nl) ∣ Dollar).

Definition ignorecase : flags := Flags true false.
Definition ignorecase_dotall : flags := Flags true true.

(** [m.group(1)] followed by a [str] method call: a group that took no
    part in the match is [None], which has no such method. *)
Definition group1_str (m : match_object) : result str :=
  match group1 m with
  | Some w => Ok w
  | None => Raise (AttributeError (lit "'NoneType' object has no attribute"))
  end.

(** The loop over the lines of a bullet list (lines 162-166). *)
Fixpoint bullet_markers (lines : list str) (markers : list str)
  : result (list str) :=
  match lines with
  | [] => Ok markers
  | line :: rest =>
      if contains (chr "-") line then
        piece ← index (split1 (chr "-") line) 1;
        let marker := strip piece in
        if truthy marker then bullet_markers rest (markers ++ [marker])
        else bullet_markers rest markers
      else bullet_markers rest markers
  end.

(** Lines 157-172: the list of markers read off the captured text. *)
Definition split_markers (captured : str) : result (list str) :=
  let markers_text := strip captured in
  if contains (chr "-") markers_text then
    bullet_markers (split nl markers_text) []
  else if contains (chr ",") markers_text then
    Ok (List.map strip
          (List.filter (fun m => truthy (strip m))
                       (split (chr ",") markers_text)))
  else if truthy markers_text then Ok [markers_text]
  else Ok [].

Section Extract.
Context `{UnicodeData}.

Definition _extract_sentiment_data (text : str) : result sentiment_data :=
  let result := default_sentiment_data in
  (* Try to extract sentiment *)
  result ←
    match search ignorecase sentiment_re text with
    | Some sentiment_match =>
        label ← group1_str sentiment_match;
        Ok (SentimentData (lower label) (confidence result)
                          (key_markers result) (analysis result))
    | None => Ok result
    end;
  (* Try to extract confidence *)
  result ←
    match search ignorecase confidence_re text with
    | Some confidence_match =>
        conf ← group1_str confidence_match;
        let conf :=
          if negb (endswith (chr "%") conf) then conf ++ lit "%" else conf in
        Ok (SentimentData (sentiment result) conf
                          (key_markers result) (analysis result))
    | None => Ok result
    end;
  (* Try to extract key markers *)
  result ←
    match search ignorecase_dotall markers_re text with
    | Some markers_match =>
        captured ← group1_str markers_match;
        markers ← split_markers captured;
        Ok (SentimentData (sentiment result) (confidence result)
                          markers (analysis result))
    | None => Ok result
    end;
  (* Try to extract analysis *)
  match search ignorecase_dotall analysis_re text with
  | Some analysis_match =>
      captured ← group1_str analysis_match;
      Ok (SentimentData (sentiment result) (confidence result)
                        (key_markers result) (strip captured))
  | None => Ok result
  end.

End Extract.

(** ** Sessions, events and [process_task] *)

(** The session service is ADK's [InMemorySessionService], a library class
    that is no part of the repository.  What [process_task] needs of it is
    assumed, not read off code: the service keeps at most one session per
    application name, user id and session id, [get_session] looks one up
    and [create_session] stores a new one under the identifier it is
    given.  A session is its state bag. *)
Record Session := { state : gmap str str }.

(** [google.genai.types.Part] and [Content], and an ADK event, as far as
    [process_task] reads them. *)
Record Part := { text : option str }.
Record Content := { role : option str; parts : option (list Part) }.
Record Event := { is_final_response : bool; content : option Content }.

(** What the asynchronous iterator returned by [runner.run_async] does when
    it is consumed: it yields events, and either ends or raises. *)
Inductive events :=
| Done
| Yield (event : Event) (rest : events)
| Fault (e : exn).

(** The exception an event stream raises, if it raises one, and the events
    it yields before it ends or raises. *)
Fixpoint fault (evs : events) : option exn :=
  match evs with
  | Done => None
  | Yield _ rest => fault rest
  | Fault e => Some e
  end.

Fixpoint yielded (evs : events) : list Event :=
  match evs with
  | Yield event rest => event :: yielded rest
  | _ => []
  end.

(** The response dict.  [data] is one of the two dict literals of
    [process_task]. *)
Inductive response_data {raw_event : Type} :=
| SuccessData (sentiment_analysis : sentiment_data)
              (raw_events : list raw_event)
| ErrorData (error_type : str).
Arguments response_data : clear implicits.

Record response {raw_event : Type} := Response {
  message : str;
  status : str;
  data : response_data raw_event
}.
Arguments response : clear implicits.
Arguments Response {raw_event} message status data.

(** [data.get("error_type")] and [data.get("sentiment_analysis")] *)
Definition get_error_type {R} (d : response_data R) : option str :=
  match d with
  | ErrorData error_type => Some error_type
  | SuccessData _ _ => None
  end.

Definition get_sentiment_analysis {R} (d : response_data R)
  : option sentiment_data :=
  match d with
  | SuccessData sentiment_analysis _ => Some sentiment_analysis
  | ErrorData _ => None
  end.

(** The guard of lines 97-98: the text [process_task] takes from an event,
    if it takes one. *)
Definition final_text (event : Event) : option str :=
  if is_final_response event then
    match content event with
    | Some c =>
        if bool_decide (role c = Some (lit "model")) then
          match parts c with
          | Some (part :: _) =>
              match text part with
              | Some t => if truthy t then Some t else None
              | None => None
              end
          | _ => None
          end
        else None
    | None => None
    end
  else None.

Section ProcessTask.
Context `{UnicodeData}.
(** [event.model_dump(exclude_none=True)]: the dumps are kept as they are. *)
Context {raw_event : Type} (model_dump : Event -> raw_event).
(** [self.runner.run_async]: given the session store, the user and session
    ids and the new message, the event stream and the store it leaves. *)
Variable run_async :
  gmap (str * str * str) Session -> str -> str -> Content ->
  events * gmap (str * str * str) Session.

(** Lines 58-69: the user id, the session id in force and the session
    store after the session was looked up or created.  [uuid4] is the value
    of [str(uuid.uuid4())], read only when no session id was passed. *)
Definition get_user_id (context : gmap str str) : str :=
  default (lit "default_a2a_user") (context !! lit "user_id").

Definition resolve_session_id (uuid4 : str) (session_id : option str) : str :=
  match session_id with
  | Some sid => if truthy sid then sid else uuid4
  | None => uuid4
  end.

(** Lines 65-68, on the assumed store: [get_session], and [create_session]
    with an empty state when there is none. *)
Definition get_or_create_session
    (sessions : gmap (str * str * str) Session) (user_id session_id : str)
  : gmap (str * str * str) Session :=
  match sessions !! (A2A_APP_NAME, user_id, session_id) with
  | Some _ => sessions
  | None => <[(A2A_APP_NAME, user_id, session_id) := Build_Session ∅]> sessions
  end.

(** Lines 93-103: the [async for] loop, with its three loop variables. *)
Fixpoint consume (evs : events) (final_message : str)
    (raw_events : list raw_event) (sentiment_data : sentiment_data)
  : result (str * list raw_event * TaskManager.sentiment_data) :=
  match evs with
  | Done => Ok (final_message, raw_events, sentiment_data)
  | Fault e => Raise e
  | Yield event rest =>
      let raw_events := raw_events ++ [model_dump event] in
      match final_text event with
      | Some t =>
          sentiment_data ← _extract_sentiment_data t;
          consume rest t raw_events sentiment_data
      | None => consume rest final_message raw_events sentiment_data
      end
  end.

(** Lines 74-121: the [try] block and its [except Exception] handler.  An
    exception whose class does not derive from [Exception] is not caught. *)
Definition run_agent (evs : events) : result (response raw_event) :=
  match consume evs (lit "(No response generated)") []
                default_sentiment_data with
  | Ok (final_message, raw_events, sentiment_data) =>
      Ok (Response final_message (lit "success")
                   (SuccessData sentiment_data (last_n 3 raw_events)))
  | Raise e =>
      if isinstance e (lit "Exception") then
        Ok (Response (lit "Error processing your request: " ++ exn_str e)
                     (lit "error")
                     (ErrorData (exn_name e)))
      else Raise e
  end.

(** Line 72: the user message handed to the runner. *)
Definition request_content (message : str) : Content :=
  Build_Content (Some (lit "user")) (Some [Build_Part (Some message)]).

Definition process_task (uuid4 : str)
    (sessions : gmap (str * str * str) Session)
    (message : str) (context : gmap str str) (session_id : option str)
  : result (response raw_event) * gmap (str * str * str) Session :=
  let user_id := get_user_id context in
  let session_id := resolve_session_id uuid4 session_id in
  let sessions := get_or_create_session sessions user_id session_id in
  let '(events_async, sessions) :=
    run_async sessions user_id session_id (request_content message) in
  (run_agent events_async, sessions).

End ProcessTask.

End TaskManager.

(* ===================================================================== *)
(** * agents/sentiment_analyzer/__main__.py                               *)
(* ===================================================================== *)

Module Main.
Import Py.

Definition DEFAULT_PORT : Z := 8004.

(** The arguments of [uvicorn.Config] in [main]. *)
Record Config := { host : str; port : Z; log_level : str }.

Section Main.
Context `{UnicodeData}.
Variable max_str_digits : N.

(** [int(os.environ.get("SENTIMENT_ANALYZER_PORT", DEFAULT_PORT))]: [int]
    of the variable's text when it is set, of the integer default
    otherwise. *)
Definition get_port (environ : gmap str str) : result Z :=
  match environ !! lit "SENTIMENT_ANALYZER_PORT" with
  | Some value => int_of_str max_str_digits value
  | None => Ok DEFAULT_PORT
  end.

(** Lines 44-51 of [main]: the configuration the server is started with. *)
Definition main (environ : gmap str str) : result Config :=
  port ← get_port environ;
  Ok (Build_Config (lit "0.0.0.0") port (lit "info")).

End Main.

End Main.

(* ===================================================================== *)
(** * apps/a2a_sentiment_app.py                                           *)
(* ===================================================================== *)

Module App.
Import Py.

(** A JSON value, as [response.json()] returns it (numbers are integers
    here; the dashboards never compute with them). *)
#[local] Unset Elimination Schemes.
Inductive json :=
| JNull
| JBool (b : bool)
| JNum (z : Z)
| JStr (s : str)
| JList (l : list json)
| JObj (o : gmap str json).
#[local] Set Elimination Schemes.

(** [d.get(key, dflt)]: only a dict has the method. *)
Definition get (d : json) (key : str) (dflt : json) : result json :=
  match d with
  | JObj o => Ok (default dflt (o !! key))
  | _ => Raise (AttributeError (lit "object has no attribute 'get'"))
  end.

Definition API_BASE_URL : str := lit "http://127.0.0.1:8004".

(** An entry of [st.session_state.messages]; the key [sentiment_data] is
    present only in the entries a successful exchange appends. *)
Record chat_message := ChatMessage {
  role : str;
  content : json;
  sentiment_data : option json
}.

(** [st.session_state], and with it the error banners [st.error] has put
    on the page. *)
Record page := Page {
  user_id : str;
  session_id : str;
  messages : list chat_message;
  errors : list str
}.

Definition st_error (msg : str) (p : page) : page :=
  Page (user_id p) (session_id p) (messages p) (errors p ++ [msg]).

Definition append_message (m : chat_message) (p : page) : page :=
  Page (user_id p) (session_id p) (messages p ++ [m]) (errors p).

(** The A2A payload of lines 79-85. *)
Definition payload (message user_id session_id : str) : json :=
  JObj (<[lit "message" := JStr message]>
       (<[lit "context" := JObj {[ lit "user_id" := JStr user_id ]}]>
       (<[lit "session_id" := JStr session_id]> ∅))).

(** What lines 90-99 come to: [requests.post], [raise_for_status] or
    [response.json] raises, or the reply's JSON body is there. *)
Inductive exchange :=
| Failed (e : exn)
| Replied (response_data : json).

Definition RequestException : str := lit "requests.exceptions.RequestException".
Definition JSONDecodeError : str := lit "json.JSONDecodeError".

Section SendMessage.
(** The agent's end of the HTTP exchange at [API_BASE_URL/run]. *)
Variable post : str -> json -> exchange.

(** Lines 98-114: the body of the [try] once the reply is parsed. *)
Definition record_reply (response_data : json) (p : page) : result page :=
  assistant_message ←
    get response_data (lit "message") (JStr (lit "(No analysis received)"));
  data ← get response_data (lit "data") (JObj ∅);
  sentiment_data ← get data (lit "sentiment_analysis") (JObj ∅);
  Ok (append_message
        (ChatMessage (lit "assistant") assistant_message (Some sentiment_data))
        p).

(** Lines 116-130: the three [except] clauses, tried in order. *)
Definition handle (e : exn) (p : page) : result bool * page :=
  if isinstance e RequestException then
    let p := st_error (lit "Network or HTTP error: " ++ exn_str e) p in
    (Ok false,
     append_message
       (ChatMessage (lit "assistant")
          (JStr (lit "Error: Could not connect to agent. " ++ exn_str e)) None)
       p)
  else if isinstance e JSONDecodeError then
    let p := st_error (lit "Failed to decode JSON response from agent.") p in
    (Ok false,
     append_message
       (ChatMessage (lit "assistant")
          (JStr (lit "Error: Invalid response format from agent.")) None)
       p)
  else if isinstance e (lit "Exception") then
    let p := st_error (lit "An unexpected error occurred: " ++ exn_str e) p in
    (Ok false,
     append_message
       (ChatMessage (lit "assistant")
          (JStr (lit "Error: An unexpected error occurred. " ++ exn_str e))
          None)
       p)
  else (Raise e, p).

Definition send_message (message : str) (p : page) : result bool * page :=
  if negb (truthy (session_id p)) then
    (Ok false, st_error (lit "No active conversation. Start typing to begin.") p)
  else
    (* Add user message to chat *)
    let p := append_message (ChatMessage (lit "user") (JStr message) None) p in
    match post (API_BASE_URL ++ lit "/run")
               (payload message (user_id p) (session_id p)) with
    | Replied response_data =>
        match record_reply response_data p with
        | Ok p' => (Ok true, p')
        | Raise e => handle e p
        end
    | Failed e => handle e p
    end.

End SendMessage.

End App.

(* ===================================================================== *)
(** * apps/unified_dashboard.py                                         *)
(* ===================================================================== *)

(* ===================================================================== *)
(** * apps/unified_dashboard.py                                           *)
(* ===================================================================== *)

Module Dashboard.
Import Py App.

(** ** More of the Python runtime *)

(** [s.startswith(prefix)] *)
Fixpoint startswith (prefix s : str) : bool :=
  match prefix, s with
  | [], _ => true
  | p :: prefix', c :: s' => (c =? p) && startswith prefix' s'
  | _ :: _, [] => false
  end.

(** [s.replace(old, new)] for a non-empty [old]: the occurrences are
    replaced from left to right, each starting after the end of the one
    before; [skip] counts the characters of an occurrence still to pass. *)
Fixpoint replace_from (old new : str) (skip : nat) (s : str) : str :=
  match s with
  | [] => []
  | c :: s' =>
      match skip with
      | S k => replace_from old new k s'
      | O =>
          if startswith old s
          then new ++ replace_from old new (length old - 1) s'
          else c :: replace_from old new O s'
      end
  end.

Definition replace (old new s : str) : str := replace_from old new 0 s.

(** [str(n)] for a natural number, as an f-string prints [len(posts)]. *)
Definition str_of_nat (n : nat) : str :=
  lit (NilEmpty.string_of_uint (Nat.to_uint n)).

(** [type(v).__name__] of a JSON value. *)
Definition type_name (v : json) : str :=
  match v with
  | JNull => lit "NoneType"
  | JBool _ => lit "bool"
  | JNum _ => lit "int"
  | JStr _ => lit "str"
  | JList _ => lit "list"
  | JObj _ => lit "dict"
  end.

Definition no_attribute (v : json) (attr : str) : exn :=
  AttributeError
    (lit "'" ++ type_name v ++ lit "' object has no attribute '" ++ attr
         ++ lit "'").

Definition TypeError (msg : str) : exn :=
  Exn (lit "TypeError") [lit "TypeError"; lit "Exception"; lit "BaseException"]
      msg.

Definition KeyError (key : str) : exn :=
  Exn (lit "KeyError")
      [lit "KeyError"; lit "LookupError"; lit "Exception"; lit "BaseException"]
      key.

Definition string_IndexError : exn :=
  Exn (lit "IndexError")
      [lit "IndexError"; lit "LookupError"; lit "Exception"; lit "BaseException"]
      (lit "string index out of range").

(** [v.get(key, dflt)] *)
Definition dict_get (v : json) (key : str) (dflt : json) : result json :=
  match v with
  | JObj o => Ok (default dflt (o !! key))
  | _ => Raise (no_attribute v (lit "get"))
  end.

(** The values [for x in v] goes through: the items of a list, the keys of
    a dict, the characters of a string. *)
Definition iterate (v : json) : result (list json) :=
  match v with
  | JList l => Ok l
  | JObj o => Ok (JStr <$> (map_to_list o).*1)
  | JStr s => Ok ((fun c => JStr [c]) <$> s)
  | _ => Raise (TypeError (lit "'" ++ type_name v
                               ++ lit "' object is not iterable"))
  end.

(** [v[0]] *)
Definition first_item (v : json) : result json :=
  match v with
  | JList (x :: _) => Ok x
  | JList [] => Raise IndexError
  | JStr (c :: _) => Ok (JStr [c])
  | JStr [] => Raise string_IndexError
  | JObj _ => Raise (KeyError (lit "0"))
  | _ => Raise (TypeError (lit "'" ++ type_name v
                               ++ lit "' object is not subscriptable"))
  end.

(** The truth value of a JSON value. *)
Definition json_truthy (v : json) : bool :=
  match v with
  | JNull => false
  | JBool b => b
  | JNum z => negb (z =? 0)%Z
  | JStr s => truthy s
  | JList l => match l with [] => false | _ => true end
  | JObj o => negb (bool_decide (o = ∅))
  end.

(** [v == "model"] *)
Definition is_str (v : json) (s : str) : bool :=
  match v with
  | JStr t => bool_decide (t = s)
  | _ => false
  end.

(** ** The page *)

Definition REDDIT_SCOUT_URL : str := lit "http://0.0.0.0:8000/run".
Definition SPEAKER_URL : str := lit "http://127.0.0.1:8003/run".
Definition SENTIMENT_ANALYZER_URL : str := lit "http://127.0.0.1:8004/run".

(** What the functions below put on the page. *)
Inductive output :=
| Error (msg : str)       (** [st.error] *)
| Warning (msg : str)     (** [st.warning] *)
| Write (msg : str)       (** [st.write] *)
| Code (body : json).     (** [st.code] *)

(** The entries of [st.session_state] the four request functions read or
    write, and what has been put on the page. *)
Record state := State {
  user_id : str;
  session_id : str;
  reddit_posts : list str;
  current_summary : json;
  current_analysis : json;
  audio_file : option str;
  shown : list output
}.

(** A [requests.Response]: its status code, its text, and what its
    [json()] method does. *)
Record response := Response {
  status_code : Z;
  response_text : str;
  response_json : result json
}.

(** Code that works on the page and may raise. *)
Definition ui (A : Type) : Type := state -> result A * state.

#[export] Instance ui_ret : MRet ui := fun _ a s => (Ok a, s).

#[export] Instance ui_bind : MBind ui := fun _ _ f m s =>
  match m s with
  | (Ok a, s') => f a s'
  | (Raise e, s') => (Raise e, s')
  end.

Definition lift {A : Type} (r : result A) : ui A := fun s => (r, s).

Definition show (o : output) : ui unit := fun s =>
  (Ok tt,
   State (user_id s) (session_id s) (reddit_posts s) (current_summary s)
         (current_analysis s) (audio_file s) (shown s ++ [o])).

Definition read {A : Type} (field : state -> A) : ui A := fun s =>
  (Ok (field s), s).

Definition set_reddit_posts (posts : list str) : ui unit := fun s =>
  (Ok tt,
   State (user_id s) (session_id s) posts (current_summary s)
         (current_analysis s) (audio_file s) (shown s)).

Definition set_current_summary (summary : json) : ui unit := fun s =>
  (Ok tt,
   State (user_id s) (session_id s) (reddit_posts s) summary
         (current_analysis s) (audio_file s) (shown s)).

Definition set_current_analysis (analysis : json) : ui unit := fun s =>
  (Ok tt,
   State (user_id s) (session_id s) (reddit_posts s) (current_summary s)
         analysis (audio_file s) (shown s)).

Definition set_audio_file (path : str) : ui unit := fun s =>
  (Ok tt,
   State (user_id s) (session_id s) (reddit_posts s) (current_summary s)
         (current_analysis s) (Some path) (shown s)).

(** [try: body / except Exception as e: handler(e)] *)
Definition try_except {A : Type} (body : ui A) (handler : exn -> ui A)
  : ui A := fun s =>
  match body s with
  | (Raise e, s') =>
      if isinstance e (lit "Exception") then handler e s' else (Raise e, s')
  | done => done
  end.

(** ** The request functions *)

(** The body of a request to the coordinator through the ADK API server
    (lines 125-133 and 190-198). *)
Definition coordinator_request (user_id session_id text : str) : json :=
  JObj (<[lit "app_name" := JStr (lit "agents.coordinator")]>
       (<[lit "user_id" := JStr user_id]>
       (<[lit "session_id" := JStr session_id]>
       (<[lit "new_message" :=
            JObj (<[lit "role" := JStr (lit "user")]>
                 (<[lit "parts" :=
                      JList [JObj {[ lit "text" := JStr text ]}]]> ∅))]>
        ∅)))).

(** The A2A payload (lines 224-230 and 263-269). *)
Definition a2a_payload (user_id session_id text : str) : json :=
  JObj (<[lit "message" := JStr text]>
       (<[lit "context" := JObj {[ lit "user_id" := JStr user_id ]}]>
       (<[lit "session_id" := JStr session_id]> ∅))).

(** Lines 143-146 and 208-211: the text of the last event whose content
    has the role ["model"], [None] when there is none. *)
Fixpoint last_model_text (events : list json) (found : json) : result json :=
  match events with
  | [] => Ok found
  | event :: rest =>
      content ← dict_get event (lit "content") (JObj ∅);
      role ← dict_get content (lit "role") JNull;
      if is_str role (lit "model") then
        content ← dict_get event (lit "content") (JObj ∅);
        parts ← dict_get content (lit "parts") (JList [JObj ∅]);
        part ← first_item parts;
        text ← dict_get part (lit "text") JNull;
        last_model_text rest text
      else last_model_text rest found
  end.

(** Lines 154-162: the posts read off the lines of the reply. *)
Fixpoint parse_lines (lines : list str) (posts : list str) : list str :=
  match lines with
  | [] => posts
  | line :: rest =>
      let line := strip line in
      if startswith (lit "- ") line then
        parse_lines rest (posts ++ [drop 2 line])
      else if bool_decide (0 < length line)%nat
              && negb (startswith (lit "Top posts from") line)
              && negb (startswith (lit "Here are") line) then
        parse_lines rest (posts ++ [line])
      else parse_lines rest posts
  end.

(** [posts_text.split('\n')] *)
Definition split_lines (v : json) : result (list str) :=
  match v with
  | JStr s => Ok (split nl s)
  | _ => Raise (no_attribute v (lit "split"))
  end.

Section Requests.
(** [requests.post(url, json=body)]: the response, unless it raises. *)
Variable post : str -> json -> result response.
(** [os.path.exists] *)
Variable exists_ : str -> bool.

Definition send_to_reddit_scout (subreddit : str) : ui (option (list str)) :=
  try_except
    (user ← read user_id;
     session ← read session_id;
     response ← lift (post REDDIT_SCOUT_URL
                        (coordinator_request user session
                           (lit "Show me the latest posts from r/"
                                ++ subreddit)));
     if negb (status_code response =? 200)%Z then
       show (Error (lit "Error: " ++ response_text response));;
       mret None
     else
       events ← lift (response_json response);
       (* Extract the final response *)
       events ← lift (iterate events);
       posts_text ← lift (last_model_text events JNull);
       show (Write (lit "Raw response from Reddit agent:"));;
       show (Code posts_text);;
       (* Parse the posts from the response text *)
       if json_truthy posts_text then
         lines ← lift (split_lines posts_text);
         let posts := parse_lines lines [] in
         show (Write (lit "Found " ++ str_of_nat (length posts)
                          ++ lit " posts"));;
         match posts with
         | _ :: _ => set_reddit_posts posts;; mret (Some posts)
         | [] =>
             show (Warning
                     (lit "No posts found in response. Please try again."));;
             mret None
         end
       else
         show (Warning (lit "No text response from Reddit agent."));;
         mret None)
    (fun e =>
       show (Error (lit "Error fetching Reddit posts: " ++ exn_str e));;
       mret None).

(** The summary returned is a JSON value; [JNull] stands for [None]. *)
Definition send_to_summarizer (text : str) : ui json :=
  try_except
    (user ← read user_id;
     session ← read session_id;
     response ← lift (post REDDIT_SCOUT_URL
                        (coordinator_request user session
                           (lit "Summarize this: " ++ text)));
     if negb (status_code response =? 200)%Z then
       show (Error (lit "Error: " ++ response_text response));;
       mret JNull
     else
       events ← lift (response_json response);
       events ← lift (iterate events);
       summary ← lift (last_model_text events JNull);
       set_current_summary summary;;
       mret summary)
    (fun e =>
       show (Error (lit "Error generating summary: " ++ exn_str e));;
       mret JNull).

Definition send_to_sentiment_analyzer (text : str) : ui json :=
  try_except
    (user ← read user_id;
     session ← read session_id;
     response ← lift (post SENTIMENT_ANALYZER_URL
                        (a2a_payload user session text));
     if negb (status_code response =? 200)%Z then
       show (Error (lit "Error: " ++ response_text response));;
       mret JNull
     else
       response_data ← lift (response_json response);
       analysis_message ← lift (dict_get response_data (lit "message")
                                         (JStr []));
       data ← lift (dict_get response_data (lit "data") (JObj ∅));
       sentiment_data ← lift (dict_get data (lit "sentiment_analysis")
                                       (JObj ∅));
       set_current_analysis
         (JObj (<[lit "message" := analysis_message]>
               (<[lit "data" := sentiment_data]> ∅)));;
       mret sentiment_data)
    (fun e =>
       show (Error (lit "Error analyzing sentiment: " ++ exn_str e));;
       mret JNull).

(** Lines 287-295: the path behind the URL the speaker returned. *)
Definition audio_path_of (audio_url : json) : result str :=
  match audio_url with
  | JStr url =>
      if startswith (lit "file://") url
      then Ok (replace (lit "file://") [] url)
      else Ok url
  | _ => Raise (no_attribute audio_url (lit "startswith"))
  end.

Definition send_to_speaker (text : str) : ui (option str) :=
  try_except
    (user ← read user_id;
     session ← read session_id;
     response ← lift (post SPEAKER_URL (a2a_payload user session text));
     if negb (status_code response =? 200)%Z then
       show (Error (lit "Error: " ++ response_text response));;
       mret None
     else
       response_data ← lift (response_json response);
       message ← lift (dict_get response_data (lit "message") (JStr []));
       data ← lift (dict_get response_data (lit "data") (JObj ∅));
       audio_url ← lift (dict_get data (lit "audio_url") JNull);
       if json_truthy audio_url then
         audio_path ← lift (audio_path_of audio_url);
         if exists_ audio_path then
           set_audio_file audio_path;; mret (Some audio_path)
         else mret None
       else mret None)
    (fun e =>
       show (Error (lit "Error converting to speech: " ++ exn_str e));;
       mret None).

End Requests.

End Dashboard.

(* ===================================================================== *)
(** * Notions used in the statements                                    *)
(* ===================================================================== *)

Module Notions.
Import Py App Dashboard.

(** ["\n".join(lines)] *)
Fixpoint join_lines (lines : list str) : str :=
  match lines with
  | [] => []
  | [line] => line
  | line :: rest => line ++ nl :: join_lines rest
  end.

(** A post title as the Reddit scout lists it: not empty, on one line, and
    not ending with white space. *)
Definition title (t : str) : Prop :=
  t <> [] /\ (nl ∉ t) /\ (forall c, last t = Some c -> isspace c = false).

(** An event of the API server's reply that [last_model_text] passes over:
    an object whose content, if any, is an object with a role other than
    ["model"]. *)
Definition other_event (event : json) : Prop :=
  exists o c,
    event = JObj o /\
    default (JObj ∅) (o !! lit "content") = JObj c /\
    is_str (default JNull (c !! lit "role")) (lit "model") = false.


(** A parsed post: not empty, and not ending with white space. *)
Definition post_ok (p : str) : Prop :=
  p <> [] /\ forall c, last p = Some c -> isspace c = false.

(** [s'] differs from [s] at most in what is shown on the page. *)
Definition only_shown (s s' : state) : Prop :=
  user_id s' = user_id s /\ session_id s' = session_id s /\
  reddit_posts s' = reddit_posts s /\
  current_summary s' = current_summary s /\
  current_analysis s' = current_analysis s /\
  audio_file s' = audio_file s.

(** A stripped string neither begins nor ends with white space. *)
Definition trimmed (s : str) : Prop :=
  (forall c, head s = Some c -> isspace c = false) /\
  (forall c, last s = Some c -> isspace c = false).

(** A character that can be no part of an integer literal: not a decimal
    digit, an underscore, a sign or white space. *)
Definition stray `{UnicodeData} (c : char) : bool :=
  bool_decide (decimal c = None) && negb (c =? 95) && negb (c =? 43)
  && negb (c =? 45) && negb (isspace c).

End Notions.

(* ===================================================================== *)
(** * Sample inputs                                                        *)
(* ===================================================================== *)

Module Samples.
Import Py TaskManager App.

(** The spec's example reply, and the same reply in the layout the agent
    is instructed to use (each section a line starting with a dash). *)
Definition example_reply : str :=
  lit "Overall Sentiment: positive" ++ nl ::
  lit "Confidence: 90%" ++ nl ::
  lit "Key Markers: happy, excited" ++ nl ::
  lit "Analysis: upbeat".

Definition instructed_reply : str :=
  lit "- Overall Sentiment: positive" ++ nl ::
  lit "- Confidence: 90%" ++ nl ::
  lit "- Key Markers: happy, excited" ++ nl ::
  lit "- Analysis: upbeat".

(** A marker list written as bullet lines, and one with indented bullets. *)
Definition bullet_reply : str :=
  lit "Key Markers:" ++ nl :: lit "- happy" ++ nl :: lit "- excited".

Definition indented_bullet_reply : str :=
  lit "Key Markers:" ++ nl :: lit "  - happy" ++ nl :: lit "  - excited".

(** A reply whose label is spelled with U+017F LATIN SMALL LETTER LONG S. *)
Definition long_s_reply : str :=
  lit "Overall Sentiment: po" ++ 0x17F :: lit "itive".

(** [asyncio.CancelledError] derives from [BaseException] only. *)
Definition CancelledError : exn :=
  Exn (lit "CancelledError")
      [lit "asyncio.exceptions.CancelledError"; lit "BaseException"] [].

(** A runner whose stream is the same whatever it is called with. *)
Definition constant_runner (evs : events)
  : gmap (str * str * str) Session -> str -> str -> Content ->
    events * gmap (str * str * str) Session :=
  fun sessions _ _ _ => (evs, sessions).

(** [requests.exceptions.ConnectionError], raised when the agent is down. *)
Definition ConnectionError (msg : str) : exn :=
  Exn (lit "ConnectionError")
      [lit "requests.exceptions.ConnectionError";
       lit "requests.exceptions.RequestException";
       lit "OSError"; lit "Exception"; lit "BaseException"] msg.

Definition unreachable (e : exn) : str -> json -> exchange :=
  fun _ _ => Failed e.

Definition fresh_page : page :=
  Page (lit "user-1d2c") (lit "conv-90ab") [] [].

End Samples.

Module EventSamples.
Import Py TaskManager.
(** A final response of the model with the given text. *)
Definition model_event (t : str) : Event :=
  Build_Event true
    (Some (Build_Content (Some (lit "model")) (Some [Build_Part (Some t)]))).

Definition four_events : events :=
  Yield (Build_Event false None)
    (Yield (Build_Event true None)
       (Yield (Build_Event false None) (Yield (Build_Event true None) Done))).

Definition answered_events : events :=
  Yield (Build_Event false None)
    (Yield (model_event (lit "Overall Sentiment: neutral"))
       (Yield (Build_Event true None) Done)).
End EventSamples.

Module ReplySamples.
Import Py App.
Definition replying (body : json) : str -> json -> exchange :=
  fun _ _ => Replied body.
Definition KeyboardInterrupt : exn :=
  Exn (lit "KeyboardInterrupt") [lit "KeyboardInterrupt"; lit "BaseException"]
      [].
End ReplySamples.

Module DashboardSamples.
Import Py App Dashboard Notions.

(** A page on which nothing has been fetched yet. *)
Definition fresh_state : state :=
  State (lit "user-1") (lit "session-1") [] (JStr []) (JObj ∅) None [].

(** A page with a summary and an audio file from an earlier round. *)
Definition used_state : state :=
  State (lit "user-1") (lit "session-1") [lit "My first game"]
        (JStr (lit "An older summary")) (JObj ∅)
        (Some (lit "/tmp/old.mp3")) [].

(** A server that answers every request with [resp]. *)
Definition answering (resp : response) : str -> json -> result response :=
  fun _ _ => Ok resp.

Definition server_error : response :=
  Response 500 (lit "Internal Server Error")
           (Raise (Exn (lit "JSONDecodeError")
                       [lit "JSONDecodeError"; lit "ValueError";
                        lit "Exception"; lit "BaseException"]
                       (lit "Expecting value: line 1 column 1 (char 0)"))).

(** The event the API server echoes for the user's message. *)
Definition user_content : gmap str json :=
  {[ lit "role" := JStr (lit "user") ]}.
Definition user_event_fields : gmap str json :=
  {[ lit "content" := JObj user_content ]}.
Definition user_event : json := JObj user_event_fields.






Definition events_response (events : list json) : response :=
  Response 200 [] (Ok (JList events)).

Definition analyzer_data : gmap str json :=
  {[ lit "sentiment_analysis" :=
       JObj {[ lit "sentiment" := JStr (lit "positive") ]} ]}.
Definition analyzer_reply : gmap str json :=
  <[lit "message" := JStr (lit "Sentiment analysis completed")]>
  (<[lit "data" := JObj analyzer_data]> ∅).

Definition speaker_data : gmap str json :=
  {[ lit "audio_url" := JStr (lit "file://" ++ lit "/tmp/speech.mp3") ]}.
Definition speaker_reply : gmap str json :=
  <[lit "message" := JStr (lit "Speech generated")]>
  (<[lit "data" := JObj speaker_data]> ∅).

Definition object_response (o : gmap str json) : response :=
  Response 200 [] (Ok (JObj o)).

(** A file system in which only [/tmp/speech.mp3] exists. *)
Definition only_speech (path : str) : bool :=
  bool_decide (path = lit "/tmp/speech.mp3").

End DashboardSamples.

(* ===================================================================== *)
(** * Properties                                                          *)
(* ===================================================================== *)

(** ** [str] methods and the Basic Latin tables *)

Module PyFacts.
Import Py.

Lemma basic_decimal_basic_latin c : c < 128 -> basic_decimal c = ascii_decimal c.
Proof.
  intros Hc. unfold basic_decimal. by destruct (N.ltb_spec c 128); [|lia].
Qed.

Lemma basic_lower_basic_latin c :
  c < 128 -> basic_lower_char c = [ascii_lower c].
Proof.
  intros Hc. unfold basic_lower_char. by destruct (N.ltb_spec c 128); [|lia].
Qed.

(** The cut-down tables implement the interface. *)
Definition basic_latin : UnicodeData :=
  Build_UnicodeData basic_decimal basic_lower_char
    basic_decimal_basic_latin basic_lower_basic_latin
    eq_refl eq_refl eq_refl.

Lemma contains_split1 sep s :
  contains sep s = true -> exists a b, split1 sep s = [a; b].
Proof.
  induction s as [|c s IH]; simpl; [done|].
  rewrite (N.eqb_sym sep c). destruct (c =? sep); simpl.
  - intros _. by exists [], s.
  - intros (a & b & ->)%IH. by exists (c :: a), b.
Qed.

Lemma split1_index_1 sep s :
  contains sep s = true -> exists b, index (split1 sep s) 1 = Ok b.
Proof. intros (a & b & ->)%contains_split1. by exists b. Qed.

End PyFacts.

(** ** The matcher *)

Module ReFacts.
Import Py Re PyFacts.

Section Matcher.
Context `{UnicodeData}.
Variable fl : flags.

Lemma star_inv {A : Type} cl s (k : str -> str -> option A) a :
  star fl cl s k = Some a -> exists w s', s = w ++ s' /\ k w s' = Some a.
Proof.
  revert k. induction s as [|c s IH]; intros k Hs; simpl in Hs.
  - by exists [], [].
  - destruct (cmatch fl cl c); [|by exists [], (c :: s)].
    destruct (star fl cl s _) eqn:E; [|by exists [], (c :: s)].
    injection Hs as ->. apply IH in E as (w & s' & -> & Hk).
    by exists (c :: w), s'.
Qed.

Lemma lazy_star_inv {A : Type} cl s (k : str -> str -> option A) a :
  lazy_star fl cl s k = Some a -> exists w s', s = w ++ s' /\ k w s' = Some a.
Proof.
  revert k. induction s as [|c s IH]; intros k Hs; simpl in Hs.
  - destruct (k [] []) eqn:E; [|done]. exists [], []. by rewrite E.
  - destruct (k [] (c :: s)) eqn:E.
    { exists [], (c :: s). by rewrite E. }
    destruct (cmatch fl cl c); [|done].
    apply IH in Hs as (w & s' & -> & Hk). by exists (c :: w), s'.
Qed.

(** A successful run hands its continuation a split of the input, and a
    group 1 that is set when the pattern captures or the group was set
    before, and that is made of characters of the input. *)
Lemma run_inv {A : Type} (P : char -> Prop) r :
  forall s g (k : str -> str -> option str -> option A) a,
  run fl r s g k = Some a ->
  Forall P s -> (forall x, g = Some x -> Forall P x) ->
  exists w s' g', s = w ++ s' /\ k w s' g' = Some a /\
                  (captures r || bool_decide (is_Some g) -> is_Some g') /\
                  (forall x, g' = Some x -> Forall P x).
Proof.
  revert A. induction r as [|cl|cl|cl| |r1 IH1 r2 IH2|r1 IH1 r2 IH2|r IH|r IH];
    intros A s g k a Hr Hs Hgp; simpl in Hr.
  - exists [], s, g. split_and!; [done..| |done].
    simpl. by intros ?%bool_decide_unpack.
  - destruct s as [|c s]; [done|]. destruct (cmatch fl cl c); [|done].
    exists [c], s, g. split_and!; [done..| |done].
    simpl. by intros ?%bool_decide_unpack.
  - apply star_inv in Hr as (w & s' & -> & Hk).
    exists w, s', g. split_and!; [done..| |done].
    simpl. by intros ?%bool_decide_unpack.
  - apply lazy_star_inv in Hr as (w & s' & -> & Hk).
    exists w, s', g. split_and!; [done..| |done].
    simpl. by intros ?%bool_decide_unpack.
  - destruct (at_dollar s); [|done].
    exists [], s, g. split_and!; [done..| |done].
    simpl. by intros ?%bool_decide_unpack.
  - apply IH1 in Hr as (w1 & s1 & g1 & -> & Hr & Hg1 & Hp1); [|done..].
    apply Forall_app in Hs as [_ Hs1].
    apply IH2 in Hr as (w2 & s2 & g2 & -> & Hk & Hg2 & Hp2); [|done..].
    exists (w1 ++ w2), s2, g2. split_and!; [by rewrite app_assoc|done| |done].
    simpl. intros Hc. apply Hg2.
    destruct (captures r2); [done|]. simpl.
    apply bool_decide_pack, Hg1. by rewrite orb_false_r in Hc.
  - destruct (run fl r1 s g k) eqn:E.
    + injection Hr as ->.
      apply IH1 in E as (w & s' & g' & -> & Hk & Hg & Hp); [|done..].
      exists w, s', g'. split_and!; [done..| |done]. simpl. intros Hc.
      apply Hg. destruct (captures r1); [done|]. by destruct (captures r2).
    + apply IH2 in Hr as (w & s' & g' & -> & Hk & Hg & Hp); [|done..].
      exists w, s', g'. split_and!; [done..| |done]. simpl. intros Hc.
      apply Hg. destruct (captures r2); [done|]. by rewrite andb_false_r in Hc.
  - apply IH in Hr as (w & s' & g' & -> & Hk & _ & _); [|done..].
    exists w, s', (Some w). split_and!; [done..|by intros _|].
    intros x [= <-]. by apply Forall_app in Hs as [? _].
  - destruct (run fl r s g _) as [g'|] eqn:E; [|done].
    apply IH in E as (w & s' & g2 & -> & [= ->] & Hg & Hp); [|done..].
    exists [], (w ++ s'), g'. split_and!; [done..| |done]. simpl. intros Hc.
    apply Hg. by destruct (captures r).
Qed.

Lemma match_here_inv (P : char -> Prop) r s m :
  match_here fl r s = Some m -> Forall P s ->
  (captures r -> is_Some (group1 m)) /\
  (forall x, group1 m = Some x -> Forall P x).
Proof.
  intros Hm Hs.
  apply (run_inv P) in Hm as (w & s' & g' & _ & [= <-] & Hg & Hp);
    [|done..].
  split; [|done]. simpl. intros Hc. apply Hg. by destruct (captures r).
Qed.

(** A pattern literal matches its text character by character. *)
Lemma literal_inv {A : Type} t :
  forall s g (k : str -> str -> option str -> option A) a,
  run fl (literal t) s g k = Some a ->
  exists w s', s = w ++ s' /\
    Forall2 (fun p c => cmatch fl (Lit p) c = true) (lit t) w /\
    k w s' g = Some a.
Proof.
  unfold literal.
  induction (lit t) as [|p cs IH]; intros s g k a Hr; cbn [foldr run] in Hr.
  - exists [], s. split_and!; [done|by apply Forall2_nil|done].
  - destruct s as [|c s]; [done|].
    destruct (cmatch fl (Lit p) c) eqn:Hc; [|done].
    apply IH in Hr as (w & s' & -> & Hw & Hk).
    exists (c :: w), s'. split_and!; [done|by apply Forall2_cons|done].
Qed.

Lemma search_inv r s m :
  search fl r s = Some m ->
  exists pre rest, s = pre ++ rest /\ match_here fl r rest = Some m.
Proof.
  induction s as [|c s IH]; simpl.
  - destruct (match_here fl r []) eqn:E; [|done]. intros [= ->]. by exists [], [].
  - destruct (match_here fl r (c :: s)) eqn:E.
    + intros [= ->]. by exists [], (c :: s).
    + intros (pre & rest & -> & Hm)%IH. by exists (c :: pre), rest.
Qed.

Lemma search_group1 (P : char -> Prop) r s m :
  search fl r s = Some m -> Forall P s ->
  (captures r -> is_Some (group1 m)) /\
  (forall x, group1 m = Some x -> Forall P x).
Proof.
  intros (pre & rest & -> & Hm)%search_inv [_ Hs]%Forall_app.
  by eapply match_here_inv.
Qed.

(** [re.search] passes over the positions that have no match. *)
Lemma search_skip r pre rest :
  (forall i, (i < length pre)%nat ->
             match_here fl r (drop i (pre ++ rest)) = None) ->
  search fl r (pre ++ rest) = search fl r rest.
Proof.
  induction pre as [|c pre IH]; intros Hno; [done|].
  pose proof (Hno 0%nat ltac:(simpl; lia)) as H0. simpl in H0 |- *.
  rewrite H0. apply IH. intros i Hi. apply (Hno (S i)). simpl. lia.
Qed.

Lemma search_here r s m :
  match_here fl r s = Some m -> search fl r s = Some m.
Proof. intros Hm. destruct s; simpl; by rewrite Hm. Qed.

End Matcher.

(** On a text of Basic Latin characters the matcher does not depend on the
    implementation of the Unicode tables. *)
Section Agreement.
Context (U1 U2 : UnicodeData).
Variable fl : flags.

Lemma cmatch_agree cl c :
  c < 128 -> @cmatch U1 fl cl c = @cmatch U2 fl cl c.
Proof.
  intros Hc. destruct cl; simpl; [done| |done].
  by rewrite (@decimal_basic_latin U1 c Hc), (@decimal_basic_latin U2 c Hc).
Qed.

Lemma star_agree {A : Type} cl s : forall (k1 k2 : str -> str -> option A),
  Forall (fun c => c < 128) s ->
  (forall w s', Forall (fun c => c < 128) s' -> k1 w s' = k2 w s') ->
  @star U1 fl A cl s k1 = @star U2 fl A cl s k2.
Proof.
  induction s as [|c s IH]; intros k1 k2 Hs Hk; simpl; [by apply Hk|].
  pose proof Hs as [Hc Hs']%Forall_cons.
  rewrite (cmatch_agree cl c Hc), (Hk [] (c :: s) Hs).
  destruct (@cmatch U2 fl cl c); [|done].
  rewrite (IH (fun w r => k1 (c :: w) r) (fun w r => k2 (c :: w) r));
    [done|done|]. intros w s' Hs2. by apply Hk.
Qed.

Lemma lazy_star_agree {A : Type} cl s : forall (k1 k2 : str -> str -> option A),
  Forall (fun c => c < 128) s ->
  (forall w s', Forall (fun c => c < 128) s' -> k1 w s' = k2 w s') ->
  @lazy_star U1 fl A cl s k1 = @lazy_star U2 fl A cl s k2.
Proof.
  induction s as [|c s IH]; intros k1 k2 Hs Hk; simpl.
  - by rewrite (Hk [] [] Hs).
  - pose proof Hs as [Hc Hs']%Forall_cons.
    rewrite (cmatch_agree cl c Hc), (Hk [] (c :: s) Hs).
    destruct (k2 [] (c :: s)); [done|].
    destruct (@cmatch U2 fl cl c); [|done].
    apply IH; [done|]. intros w s' Hs2. by apply Hk.
Qed.

Lemma run_agree {A : Type} r :
  forall s g (k1 k2 : str -> str -> option str -> option A),
  Forall (fun c => c < 128) s ->
  (forall w s' g', Forall (fun c => c < 128) s' -> k1 w s' g' = k2 w s' g') ->
  @run U1 fl A r s g k1 = @run U2 fl A r s g k2.
Proof.
  revert A. induction r as [|cl|cl|cl| |r1 IH1 r2 IH2|r1 IH1 r2 IH2|r IH|r IH];
    intros A s g k1 k2 Hs Hk; simpl.
  - by apply Hk.
  - destruct s as [|c s]; [done|].
    pose proof Hs as [Hc Hs']%Forall_cons.
    rewrite (cmatch_agree cl c Hc). destruct (@cmatch U2 fl cl c); [|done].
    by apply Hk.
  - apply star_agree; [done|]. intros w s' Hs'. by apply Hk.
  - apply lazy_star_agree; [done|]. intros w s' Hs'. by apply Hk.
  - destruct (at_dollar s); [|done]. by apply Hk.
  - apply IH1; [done|]. intros w1 s1 g1 Hs1.
    apply IH2; [done|]. intros w2 s2 g2 Hs2. by apply Hk.
  - rewrite (IH1 A s g k1 k2 Hs Hk), (IH2 A s g k1 k2 Hs Hk). done.
  - apply IH; [done|]. intros w s' g' Hs'. by apply Hk.
  - rewrite (IH (option str) s g (fun _ _ g' => Some g')
                (fun _ _ g' => Some g') Hs) by done.
    destruct (@run U2 fl _ r s g _); [|done]. by apply Hk.
Qed.

Lemma match_here_agree r s :
  Forall (fun c => c < 128) s ->
  @match_here U1 fl r s = @match_here U2 fl r s.
Proof. intros Hs. by apply run_agree. Qed.

Lemma search_agree r s :
  Forall (fun c => c < 128) s -> @search U1 fl r s = @search U2 fl r s.
Proof.
  induction s as [|c s IH]; intros Hs; simpl.
  - by rewrite match_here_agree.
  - rewrite match_here_agree by done.
    apply Forall_cons in Hs as [_ Hs]. by rewrite IH.
Qed.

End Agreement.

End ReFacts.

(** ** [_extract_sentiment_data] *)

Module ExtractFacts.
Import Py Re TaskManager Samples ReFacts PyFacts.

Lemma bullet_markers_total lines : forall markers,
  exists ms, bullet_markers lines markers = Ok ms.
Proof.
  induction lines as [|line rest IH]; intros markers; simpl; [by eexists|].
  destruct (contains (chr "-") line) eqn:E; [|apply IH].
  apply split1_index_1 in E as (piece & ->). simpl.
  destruct (truthy (strip piece)); apply IH.
Qed.

Lemma split_markers_total captured :
  exists ms, split_markers captured = Ok ms.
Proof.
  unfold split_markers.
  destruct (contains (chr "-") _); [apply bullet_markers_total|].
  destruct (contains (chr ",") _); [by eexists|].
  destruct (truthy _); by eexists.
Qed.

Section Extract.
Context `{UnicodeData}.

(** The extraction never raises, and each field is what its own pattern
    found, or its default when the pattern has no match in the text. *)
Lemma extract_fields (text : str) :
  exists r, _extract_sentiment_data text = Ok r /\
    sentiment r =
      match search ignorecase sentiment_re text with
      | Some m => lower (default [] (group1 m))
      | None => lit "unknown"
      end /\
    confidence r =
      match search ignorecase confidence_re text with
      | Some m =>
          let conf := default [] (group1 m) in
          if negb (endswith (chr "%") conf) then conf ++ lit "%" else conf
      | None => lit "0%"
      end /\
    match search ignorecase_dotall markers_re text with
    | Some m => split_markers (default [] (group1 m)) = Ok (key_markers r)
    | None => key_markers r = []
    end /\
    analysis r =
      match search ignorecase_dotall analysis_re text with
      | Some m => strip (default [] (group1 m))
      | None => lit "No analysis available"
      end.
Proof.
  unfold _extract_sentiment_data.
  destruct (search ignorecase sentiment_re text) as [m1|] eqn:E1;
  destruct (search ignorecase confidence_re text) as [m2|] eqn:E2;
  destruct (search ignorecase_dotall markers_re text) as [m3|] eqn:E3;
  destruct (search ignorecase_dotall analysis_re text) as [m4|] eqn:E4;
  repeat match goal with
  | E : search _ _ _ = Some ?m |- _ =>
      apply (search_group1 _ (fun _ => True)) in E as [E _];
        [|by apply Forall_true];
      destruct E as [? E]; [done|];
      unfold group1_str; rewrite E; clear E
  end; simpl;
  try (match goal with
       | |- context [split_markers ?w] =>
           destruct (split_markers_total w) as [ms ->]
       end; simpl);
  by eexists.
Qed.

Lemma extract_total (text : str) :
  exists r, _extract_sentiment_data text = Ok r.
Proof. destruct (extract_fields text) as (r & Hr & _). by exists r. Qed.

End Extract.

(** *** Texts of Basic Latin characters *)

Lemma lower_agree (U1 U2 : UnicodeData) w :
  Forall (fun c => c < 128) w -> @lower U1 w = @lower U2 w.
Proof.
  induction 1 as [|c w Hc _ IH]; [done|]. unfold lower in *. simpl.
  by rewrite IH, (@lower_basic_latin U1 c Hc), (@lower_basic_latin U2 c Hc).
Qed.

(** On such a text the extraction is the same for every implementation of
    the Unicode tables, so it can be computed with the cut-down ones. *)
Lemma extract_agree (U1 U2 : UnicodeData) text :
  Forall (fun c => c < 128) text ->
  @_extract_sentiment_data U1 text = @_extract_sentiment_data U2 text.
Proof.
  intros Ht. unfold _extract_sentiment_data.
  rewrite !(search_agree U1 U2) by done.
  destruct (@search U2 ignorecase sentiment_re text) as [m|] eqn:E; [|done].
  apply (search_group1 _ (fun c => c < 128)) in E as [_ Hp]; [|done].
  unfold group1_str. destruct (group1 m) as [w|]; [|done]. simpl.
  by rewrite (lower_agree U1 U2 w) by (by apply Hp).
Qed.

Lemma basic_latin_text text :
  forallb (fun c => c <? 128) text = true -> Forall (fun c => c < 128) text.
Proof.
  intros Ht. apply Forall_forall. intros c Hc%list_elem_of_In.
  rewrite forallb_forall in Ht. by apply N.ltb_lt, Ht.
Qed.

(** Evaluation of the tests a pattern literal makes on given characters. *)
Ltac eval_literals :=
  repeat match goal with
  | |- context [cmatch ?fl (Lit ?p) ?c] =>
      let b := eval vm_compute in (cmatch fl (Lit p) c) in
      change (cmatch fl (Lit p) c) with b
  end.

(** Evaluation of a search that never consults the Unicode tables. *)
Ltac eval_search :=
  repeat match goal with
  | |- context [search ?fl ?r ?s] =>
      let v := eval vm_compute in (search fl r s) in
      change (search fl r s) with v
  end.

Section Claims.
Context `{UnicodeData}.

Lemma cmatch_digit fl c :
  c < 128 -> cmatch fl Digit c = (48 <=? c) && (c <=? 57).
Proof.
  intros Hc. simpl. rewrite decimal_basic_latin by done.
  unfold ascii_decimal, is_ascii_digit.
  by destruct ((48 <=? c) && (c <=? 57)).
Qed.

Lemma cmatch_not_decimal fl c : decimal c = None -> cmatch fl Digit c = false.
Proof. intros Hc. simpl. by rewrite Hc. Qed.

Lemma star_stop {A : Type} fl cl s (k : str -> str -> option A) :
  match s with c :: _ => cmatch fl cl c = false | [] => True end ->
  star fl cl s k = k [] s.
Proof. destruct s as [|c s]; simpl; [done|]. by intros ->. Qed.

(** C2: the code at the spec's example.  The markers pattern stops only at
    a blank line, at a line starting with a dash or at the end of the
    text, so the capture runs on through the ["Analysis:"] line and the
    second marker comes out as ["excited\nAnalysis: upbeat"]. *)
Theorem extract_example_reply :
  _extract_sentiment_data example_reply
  = Ok (SentimentData (lit "positive") (lit "90%")
          [lit "happy"; lit "excited" ++ nl :: lit "Analysis: upbeat"]
          (lit "upbeat")).
Proof.
  rewrite (extract_agree H basic_latin)
    by (apply basic_latin_text; vm_compute; reflexivity).
  vm_compute. reflexivity.
Qed.

(** In the layout the agent is instructed to use, the same sections come
    out as the spec's example expects. *)
Lemma extract_instructed_reply :
  _extract_sentiment_data instructed_reply
  = Ok (SentimentData (lit "positive") (lit "90%")
          [lit "happy"; lit "excited"] (lit "upbeat")).
Proof.
  rewrite (extract_agree H basic_latin)
    by (apply basic_latin_text; vm_compute; reflexivity).
  vm_compute. reflexivity.
Qed.

(** C4: the code at a marker list written as bullet lines.  The markers
    pattern stops in front of the first line that starts with a dash, so
    nothing is captured and no marker is returned. *)
Theorem extract_bullet_reply :
  _extract_sentiment_data bullet_reply
  = Ok (SentimentData (lit "unknown") (lit "0%") []
                      (lit "No analysis available")).
Proof.
  rewrite (extract_agree H basic_latin)
    by (apply basic_latin_text; vm_compute; reflexivity).
  vm_compute. reflexivity.
Qed.

(** Bullets that do not start their line are read as the comment of the
    bullet branch describes. *)
Lemma extract_indented_bullet_reply :
  _extract_sentiment_data indented_bullet_reply
  = Ok (SentimentData (lit "unknown") (lit "0%")
          [lit "happy"; lit "excited"] (lit "No analysis available")).
Proof.
  rewrite (extract_agree H basic_latin)
    by (apply basic_latin_text; vm_compute; reflexivity).
  vm_compute. reflexivity.
Qed.

(** C7: the code at a label spelled with a long s.  Under [re.IGNORECASE]
    the long s matches the [s] of the pattern, and [str.lower] leaves it
    as it is: the sentiment returned is none of the four labels. *)
Theorem extract_long_s_reply :
  _extract_sentiment_data long_s_reply
  = Ok (SentimentData (lit "po" ++ 0x17F :: lit "itive") (lit "0%") []
                      (lit "No analysis available")) /\
  lit "po" ++ 0x17F :: lit "itive"
    ∉ [lit "positive"; lit "negative"; lit "neutral"; lit "unknown"].
Proof.
  split.
  - unfold _extract_sentiment_data. eval_search.
    cbn [group1_str group1 mbind result_bind]. unfold lower.
    cbn [flat_map app].
    rewrite lower_017F. rewrite !lower_basic_latin by lia.
    vm_compute. reflexivity.
  - rewrite !not_elem_of_cons. split_and!; [by vm_compute..|].
    apply not_elem_of_nil.
Qed.

(** Group 1 of a match of the sentiment pattern is one of the three
    labels, up to the case of its letters. *)
Lemma sentiment_group text m w :
  search ignorecase sentiment_re text = Some m -> group1 m = Some w ->
  Exists (fun label =>
            Forall2 (fun p c => cmatch ignorecase (Lit p) c = true) label w)
         [lit "positive"; lit "negative"; lit "neutral"].
Proof.
  intros (pre & rest & _ & Hm)%search_inv Hw.
  unfold match_here, sentiment_re in Hm. cbn [run] in Hm.
  apply literal_inv in Hm as (w1 & s1 & _ & _ & Hm).
  apply star_inv in Hm as (w2 & s2 & _ & Hm).
  destruct (run ignorecase (literal "positive") s2 None _) eqn:E1.
  { injection Hm as ->. apply literal_inv in E1 as (w3 & s3 & _ & H3 & [= <-]).
    simpl in Hw. injection Hw as <-. by apply Exists_cons_hd. }
  destruct (run ignorecase (literal "negative") s2 None _) eqn:E2.
  { injection Hm as ->. apply literal_inv in E2 as (w3 & s3 & _ & H3 & [= <-]).
    simpl in Hw. injection Hw as <-. by apply Exists_cons_tl, Exists_cons_hd. }
  apply literal_inv in Hm as (w3 & s3 & _ & H3 & [= <-]).
  simpl in Hw. injection Hw as <-.
  by apply Exists_cons_tl, Exists_cons_tl, Exists_cons_hd.
Qed.

(** A Basic Latin character that matches a pattern letter under
    [re.IGNORECASE] is that letter in upper or lower case. *)
Lemma ignorecase_basic_latin p c :
  c < 128 -> cmatch ignorecase (Lit p) c = true ->
  ascii_lower c = ascii_lower p.
Proof.
  intros Hc. simpl. unfold lit_ignorecase.
  destruct (iscased p).
  - intros [[[Hm|Hm]%orb_prop|Hm]%orb_prop|Hm]%orb_prop.
    + by apply N.eqb_eq in Hm.
    + apply andb_prop in Hm as [_ [Hm|Hm]%orb_prop]; apply N.eqb_eq in Hm; lia.
    + apply andb_prop in Hm as [_ Hm]; apply N.eqb_eq in Hm; lia.
    + apply andb_prop in Hm as [_ Hm]; apply N.eqb_eq in Hm; lia.
  - by intros ->%N.eqb_eq.
Qed.

Lemma lower_basic_latin_str w :
  Forall (fun c => c < 128) w -> lower w = ascii_lower <$> w.
Proof.
  induction 1 as [|c w Hc _ IH]; [done|]. unfold lower in *. simpl.
  by rewrite IH, lower_basic_latin.
Qed.

Lemma lower_label label w :
  Forall (fun c => c < 128) w ->
  Forall2 (fun p c => cmatch ignorecase (Lit p) c = true) label w ->
  lower w = ascii_lower <$> label.
Proof.
  intros Hw Hl. rewrite lower_basic_latin_str by done.
  induction Hl as [|p c label w Hpc _ IH]; [done|].
  apply Forall_cons in Hw as [Hc Hw].
  by rewrite !fmap_cons, IH, (ignorecase_basic_latin p c).
Qed.

(** X5.  On a text of Basic Latin characters the sentiment is one of the
    four labels. *)
Lemma extract_sentiment_basic_latin text :
  Forall (fun c => c < 128) text ->
  exists r, _extract_sentiment_data text = Ok r /\
    sentiment r
      ∈ [lit "positive"; lit "negative"; lit "neutral"; lit "unknown"].
Proof.
  intros Ht. destruct (extract_fields text) as (r & Hr & Hs & _).
  exists r. split; [done|]. rewrite Hs.
  destruct (search ignorecase sentiment_re text) as [m|] eqn:E;
    [|by repeat constructor].
  pose proof E as [Hsome Hp]%(search_group1 _ (fun c => c < 128)); [|done].
  destruct Hsome as [w Hw]; [done|]. rewrite Hw. simpl.
  pose proof (sentiment_group text m w E Hw) as Hl.
  rewrite !Exists_cons in Hl.
  destruct Hl as [Hl|[Hl|[Hl|Hl]]]; [| | |by apply Exists_nil in Hl];
    rewrite (lower_label _ w (Hp w Hw) Hl).
  - apply list_elem_of_here.
  - apply list_elem_of_further, list_elem_of_here.
  - do 2 apply list_elem_of_further. apply list_elem_of_here.
Qed.

(** A greedy repetition takes the whole run of matching characters when
    what follows can be matched from there. *)
Lemma star_max {A : Type} fl cl ds rest (k : str -> str -> option A) a :
  Forall (fun c => cmatch fl cl c = true) ds ->
  match rest with c :: _ => cmatch fl cl c = false | [] => True end ->
  k ds rest = Some a ->
  star fl cl (ds ++ rest) k = Some a.
Proof.
  intros Hds Hrest. revert k. induction Hds as [|c ds Hc _ IH]; intros k Hk.
  - simpl. by rewrite star_stop.
  - simpl. rewrite Hc. by rewrite (IH (fun w r => k (c :: w) r)).
Qed.

(** The confidence pattern at ["Confidence: 82"], when no further digit
    follows: group 1 is ["82"], or ["82%"] when a percent sign follows. *)
Lemma confidence_here post :
  match post with c :: _ => decimal c = None | [] => True end ->
  exists g0 w,
    match_here ignorecase confidence_re (lit "Confidence: 82" ++ post)
    = Some (Match g0 (Some w)) /\ (w = lit "82" \/ w = lit "82%").
Proof.
  intros Hpost.
  assert (match post with
          | c :: _ => cmatch ignorecase Digit c = false
          | [] => True
          end) as Hstop.
  { destruct post; [done|]. by apply cmatch_not_decimal. }
  unfold match_here.
  let r := eval vm_compute in confidence_re in change confidence_re with r.
  let r := eval vm_compute in (lit "Confidence: 82") in
    change (lit "Confidence: 82") with r.
  cbn [app run star]. eval_literals. cbn iota.
  rewrite !(cmatch_digit _ 56), !(cmatch_digit _ 50) by lia.
  change ((48 <=? 56) && (56 <=? 57)) with true.
  change ((48 <=? 50) && (50 <=? 57)) with true.
  cbn iota. rewrite !(star_stop _ Digit post) by done.
  eval_literals. cbn iota.
  destruct post as [|c post]; [by eexists _, _; split; [done|left]|].
  change (cmatch ignorecase (Lit 37) c) with (c =? 37).
  destruct (N.eqb_spec c 37) as [->|_]; eexists _, _; (split; [done|]);
    [by right|by left].
Qed.

(** C5.  When the first match of the confidence pattern in a text is at
    ["Confidence: 82"], a bare number (no further digit follows it), the
    confidence returned is ["82%"]. *)
Theorem extract_bare_confidence pre post :
  (forall i, (i < length pre)%nat ->
     match_here ignorecase confidence_re
       (drop i (pre ++ lit "Confidence: 82" ++ post)) = None) ->
  match post with c :: _ => decimal c = None | [] => True end ->
  exists r,
    _extract_sentiment_data (pre ++ lit "Confidence: 82" ++ post) = Ok r /\
    confidence r = lit "82%".
Proof.
  intros Hfirst Hpost.
  destruct (extract_fields (pre ++ lit "Confidence: 82" ++ post))
    as (r & Hr & _ & Hconf & _).
  exists r. split; [done|]. rewrite Hconf.
  rewrite search_skip by done.
  destruct (confidence_here post Hpost) as (g0 & w & Hm & Hw).
  rewrite (search_here _ _ _ _ Hm). simpl.
  by destruct Hw as [-> | ->].
Qed.

(** C3, as amended.  A text with no match of the sentiment pattern gets the
    sentiment ["unknown"]; it gets the confidence ["0%"] when it has no
    match of the confidence pattern either. *)
Theorem extract_without_sentiment text :
  search ignorecase sentiment_re text = None ->
  exists r,
    _extract_sentiment_data text = Ok r /\
    sentiment r = lit "unknown" /\
    (search ignorecase confidence_re text = None ->
     confidence r = lit "0%").
Proof.
  intros Hnone. destruct (extract_fields text) as (r & Hr & Hs & Hc & _).
  exists r. split_and!; [done| |].
  - by rewrite Hs, Hnone.
  - intros Hnoconf. by rewrite Hc, Hnoconf.
Qed.

(** The markers pattern at a heading that is followed, after any spaces,
    by a line starting with a dash: group 1 is empty. *)
Lemma markers_here n rest :
  exists g0,
    match_here ignorecase_dotall markers_re
      (lit "Key Markers:" ++ replicate n 32 ++ nl :: 45 :: rest)
    = Some (Match g0 (Some [])).
Proof.
  unfold match_here.
  let r := eval vm_compute in markers_re in change markers_re with r.
  let r := eval vm_compute in (lit "Key Markers:") in
    change (lit "Key Markers:") with r.
  cbn [app run]. eval_literals. cbn iota.
  eexists. apply star_max.
  - apply Forall_forall. by intros c ->%elem_of_replicate_inv.
  - done.
  - unfold nl. cbn [lazy_star run]. eval_literals. by cbn iota.
Qed.

(** Whatever the text: when the first ["Key Markers:"] heading is followed
    by bullet lines that start with the dash, no marker is returned. *)
Lemma extract_bullet_lines pre n rest :
  (forall i, (i < length pre)%nat ->
     match_here ignorecase_dotall markers_re
       (drop i (pre ++ lit "Key Markers:" ++ replicate n 32
                    ++ nl :: 45 :: rest)) = None) ->
  exists r,
    _extract_sentiment_data
      (pre ++ lit "Key Markers:" ++ replicate n 32 ++ nl :: 45 :: rest)
    = Ok r /\
    key_markers r = [].
Proof.
  intros Hfirst.
  destruct (extract_fields
              (pre ++ lit "Key Markers:" ++ replicate n 32
                   ++ nl :: 45 :: rest)) as (r & Hr & _ & _ & Hk & _).
  exists r. split; [done|]. rewrite search_skip in Hk by done.
  destruct (markers_here n rest) as (g0 & Hm).
  rewrite (search_here _ _ _ _ Hm) in Hk. simpl in Hk.
  by injection Hk as <-.
Qed.

End Claims.

Lemma extract_bare_confidence_witness :
  exists r,
    _extract_sentiment_data (H := basic_latin)
      (lit "- " ++ lit "Confidence: 82" ++ nl :: lit "- Analysis: calm")
    = Ok r /\
    confidence r = lit "82%".
Proof.
  apply (extract_bare_confidence (H := basic_latin)
           (lit "- ") (nl :: lit "- Analysis: calm")).
  - intros [|[|i]] Hi; [vm_compute; reflexivity..|].
    vm_compute in Hi. lia.
  - vm_compute. reflexivity.
Defined.

(** C3, as stated, fails: the confidence is read whether or not a sentiment
    line is there. *)
Lemma extract_confidence_without_sentiment :
  ~ forall text,
      search (H := basic_latin) ignorecase sentiment_re text = None ->
      exists r,
        _extract_sentiment_data (H := basic_latin) text = Ok r /\
        sentiment r = lit "unknown" /\ confidence r = lit "0%".
Proof.
  intros Hclaim.
  destruct (Hclaim (lit "Confidence: 90%")) as (r & Hr & _ & Hconf);
    [vm_compute; reflexivity|].
  vm_compute in Hr. injection Hr as <-. by vm_compute in Hconf.
Qed.

Lemma extract_without_sentiment_witness :
  exists r,
    _extract_sentiment_data (H := basic_latin) (lit "Confidence: 90%") = Ok r /\
    sentiment r = lit "unknown" /\
    (search (H := basic_latin) ignorecase confidence_re
            (lit "Confidence: 90%") = None ->
     confidence r = lit "0%").
Proof.
  apply (extract_without_sentiment (H := basic_latin) (lit "Confidence: 90%")).
  vm_compute. reflexivity.
Defined.

End ExtractFacts.

(** ** [process_task] *)

Module ProcessTaskFacts.
Import Py Re TaskManager Samples ReFacts PyFacts ExtractFacts.

(** The guard of lines 97-98, spelled out. *)
Lemma final_text_Some event t :
  final_text event = Some t <->
  is_final_response event = true /\
  exists c part rest,
    content event = Some c /\ role c = Some (lit "model") /\
    parts c = Some (part :: rest) /\ text part = Some t /\ t <> [].
Proof.
  unfold final_text. split.
  - destruct (is_final_response event); [|done].
    destruct (content event) as [c|]; [|done].
    case_bool_decide as Hrole; [|done].
    destruct (parts c) as [[|part rest]|] eqn:Hparts; [done| |done].
    destruct (text part) as [t'|] eqn:Ht; [|done].
    destruct t' as [|ch t']; [done|]. intros [= <-].
    split; [done|]. by exists c, part, rest.
  - intros (-> & c & part & rest & -> & Hrole & -> & -> & Ht).
    rewrite bool_decide_true; [|done]. by destruct t.
Qed.

Section ProcessTask.
Context `{UnicodeData}.
Context {raw_event : Type} (model_dump : Event -> raw_event).

(** The loop raises exactly when the stream does: the extraction it runs
    on the way never raises. *)
Lemma consume_fault evs : forall final_message raw_events sd,
  match fault evs with
  | Some e => consume model_dump evs final_message raw_events sd = Raise e
  | None =>
      exists final_message' sd',
        consume model_dump evs final_message raw_events sd =
        Ok (final_message', raw_events ++ (model_dump <$> yielded evs), sd')
  end.
Proof.
  induction evs as [|event rest IH|e]; intros fm raw sd; simpl.
  - exists fm, sd. by rewrite app_nil_r.
  - destruct (final_text event) as [t|].
    + destruct (extract_total t) as [sd' ->]. simpl.
      specialize (IH t (raw ++ [model_dump event]) sd').
      destruct (fault rest); [done|].
      destruct IH as (fm' & sd'' & ->). exists fm', sd''.
      by rewrite <- app_assoc.
    + specialize (IH fm (raw ++ [model_dump event]) sd).
      destruct (fault rest); [done|].
      destruct IH as (fm' & sd'' & ->). exists fm', sd''.
      by rewrite <- app_assoc.
  - done.
Qed.

(** Without an event to take a text from, the loop variables keep their
    initial values. *)
Lemma consume_no_final_text evs : forall final_message raw_events sd,
  fault evs = None ->
  Forall (fun event => final_text event = None) (yielded evs) ->
  consume model_dump evs final_message raw_events sd =
  Ok (final_message, raw_events ++ (model_dump <$> yielded evs), sd).
Proof.
  induction evs as [|event rest IH|e]; intros fm raw sd Hf Hall; simpl in *.
  - by rewrite app_nil_r.
  - apply Forall_cons in Hall as [-> Hall].
    rewrite IH; [|done..]. by rewrite <- app_assoc.
  - done.
Qed.

(** The response is computed from the runner's events alone. *)
Lemma process_task_response run_async uuid4 sessions message context sid :
  (process_task model_dump run_async uuid4 sessions message context sid).1 =
  run_agent model_dump
    (run_async
       (get_or_create_session sessions (get_user_id context)
                              (resolve_session_id uuid4 sid))
       (get_user_id context) (resolve_session_id uuid4 sid)
       (request_content message)).1.
Proof. unfold process_task. by destruct (run_async _ _ _ _). Qed.

(** C1, as amended.  For every message, context and session id: when the
    runner's event stream raises an exception whose class derives from
    [Exception], [process_task] returns normally, with a response whose
    status is ["error"], whose data carries the exception's class name
    under [error_type] and whose message quotes the exception; when it
    raises an exception whose class derives from [BaseException] only,
    [process_task] raises that exception. *)
Theorem process_task_catches_Exception
    run_async uuid4 sessions message context sid e :
  fault (run_async
           (get_or_create_session sessions (get_user_id context)
                                  (resolve_session_id uuid4 sid))
           (get_user_id context) (resolve_session_id uuid4 sid)
           (request_content message)).1 = Some e ->
  (process_task model_dump run_async uuid4 sessions message context sid).1
  = if isinstance e (lit "Exception")
    then Ok (Response (lit "Error processing your request: " ++ exn_str e)
                      (lit "error") (ErrorData (exn_name e)))
    else Raise e.
Proof.
  intros Hfault. rewrite process_task_response. unfold run_agent.
  pose proof (consume_fault (run_async
           (get_or_create_session sessions (get_user_id context)
                                  (resolve_session_id uuid4 sid))
           (get_user_id context) (resolve_session_id uuid4 sid)
           (request_content message)).1
    (lit "(No response generated)") [] default_sentiment_data) as Hc.
  rewrite Hfault in Hc. by rewrite Hc.
Qed.

(** C10.  When the runner's event stream ends without raising and none of
    its events is a final response with model-role content and a non-empty
    first-part text, [process_task] answers with status ["success"], the
    message ["(No response generated)"] and the all-default sentiment
    record. *)
Theorem process_task_no_response_generated
    run_async uuid4 sessions message context sid :
  fault (run_async
           (get_or_create_session sessions (get_user_id context)
                                  (resolve_session_id uuid4 sid))
           (get_user_id context) (resolve_session_id uuid4 sid)
           (request_content message)).1 = None ->
  Forall (fun event => final_text event = None)
    (yielded (run_async
           (get_or_create_session sessions (get_user_id context)
                                  (resolve_session_id uuid4 sid))
           (get_user_id context) (resolve_session_id uuid4 sid)
           (request_content message)).1) ->
  (process_task model_dump run_async uuid4 sessions message context sid).1
  = Ok (Response (lit "(No response generated)") (lit "success")
          (SuccessData
             (SentimentData (lit "unknown") (lit "0%") []
                            (lit "No analysis available"))
             (last_n 3
                (model_dump <$>
                 yielded (run_async
                   (get_or_create_session sessions (get_user_id context)
                                          (resolve_session_id uuid4 sid))
                   (get_user_id context) (resolve_session_id uuid4 sid)
                   (request_content message)).1)))).
Proof.
  intros Hfault Hnone. rewrite process_task_response. unfold run_agent.
  by rewrite consume_no_final_text.
Qed.


End ProcessTask.

(** C1, as stated, fails: a cancellation raised while the stream is
    consumed passes through [except Exception] to the caller. *)
Lemma process_task_CancelledError_escapes :
  fault (Fault CancelledError) = Some CancelledError /\
  (process_task (H := basic_latin) (fun _ => tt)
     (constant_runner (Fault CancelledError))
     (lit "5f0c") ∅ (lit "hello") ∅ None).1 = Raise CancelledError.
Proof. by vm_compute. Qed.

Lemma process_task_catches_Exception_witness :
  (process_task (H := basic_latin) (fun _ => tt)
     (constant_runner (Yield (Build_Event false None)
                             (Fault (ValueError (lit "no session")))))
     (lit "5f0c") ∅ (lit "hello") ∅ None).1
  = Ok (Response (lit "Error processing your request: " ++ lit "no session")
                 (lit "error") (ErrorData (lit "ValueError"))) /\
  (process_task (H := basic_latin) (fun _ => tt)
     (constant_runner (Yield (Build_Event false None)
                             (Fault ReplySamples.KeyboardInterrupt)))
     (lit "5f0c") ∅ (lit "hello") ∅ (Some (lit "77ab"))).1
  = Raise ReplySamples.KeyboardInterrupt.
Proof.
  split.
  - apply (process_task_catches_Exception (H := basic_latin) (fun _ => tt)
             (constant_runner (Yield (Build_Event false None)
                                     (Fault (ValueError (lit "no session")))))
             (lit "5f0c") ∅ (lit "hello") ∅ None
             (ValueError (lit "no session"))).
    reflexivity.
  - apply (process_task_catches_Exception (H := basic_latin) (fun _ => tt)
             (constant_runner (Yield (Build_Event false None)
                                     (Fault ReplySamples.KeyboardInterrupt)))
             (lit "5f0c") ∅ (lit "hello") ∅ (Some (lit "77ab"))
             ReplySamples.KeyboardInterrupt).
    reflexivity.
Defined.

Lemma process_task_no_response_generated_witness :
  (process_task (H := basic_latin) (fun _ => tt)
     (constant_runner
        (Yield (Build_Event true
                  (Some (Build_Content (Some (lit "model")) (Some []))))
               Done))
     (lit "5f0c") ∅ (lit "hello") ∅ None).1
  = Ok (Response (lit "(No response generated)") (lit "success")
          (SuccessData
             (SentimentData (lit "unknown") (lit "0%") []
                            (lit "No analysis available"))
             [tt])).
Proof.
  apply (process_task_no_response_generated (H := basic_latin) (fun _ => tt)
           (constant_runner
              (Yield (Build_Event true
                        (Some (Build_Content (Some (lit "model")) (Some []))))
                     Done))
           (lit "5f0c") ∅ (lit "hello") ∅ None).
  - reflexivity.
  - simpl. constructor; [vm_compute; reflexivity | constructor].
Defined.



End ProcessTaskFacts.

(** ** The dashboard's [send_message] *)

Module AppFacts.
Import Py App Samples.

(** C8.  When the HTTP exchange of [send_message] fails with a [requests]
    exception, the function returns [False] without raising, one error
    banner is shown, and the chat history gains the user's message
    followed by an assistant-role error message. *)
Theorem send_message_request_failure post message p e :
  truthy (session_id p) = true ->
  post (API_BASE_URL ++ lit "/run")
       (payload message (user_id p) (session_id p)) = Failed e ->
  isinstance e RequestException = true ->
  send_message post message p =
  (Ok false,
   Page (user_id p) (session_id p)
     (messages p ++
      [ChatMessage (lit "user") (JStr message) None;
       ChatMessage (lit "assistant")
         (JStr (lit "Error: Could not connect to agent. " ++ exn_str e)) None])
     (errors p ++ [lit "Network or HTTP error: " ++ exn_str e])).
Proof.
  intros Hsid Hpost Hreq. unfold send_message. rewrite Hsid.
  cbn [negb append_message user_id session_id].
  rewrite Hpost. unfold handle. rewrite Hreq.
  unfold append_message, st_error. simpl. by rewrite <- app_assoc.
Qed.

Lemma send_message_request_failure_witness :
  send_message (unreachable (ConnectionError (lit "refused")))
               (lit "I love it") fresh_page =
  (Ok false,
   Page (lit "user-1d2c") (lit "conv-90ab")
     [ChatMessage (lit "user") (JStr (lit "I love it")) None;
      ChatMessage (lit "assistant")
        (JStr (lit "Error: Could not connect to agent. " ++ lit "refused"))
        None]
     [lit "Network or HTTP error: " ++ lit "refused"]).
Proof.
  apply (send_message_request_failure
           (unreachable (ConnectionError (lit "refused")))
           (lit "I love it") fresh_page (ConnectionError (lit "refused"))).
  - reflexivity.
  - reflexivity.
  - vm_compute. reflexivity.
Defined.

End AppFacts.

(** ** The server's port *)

Module MainFacts.
Import Py Main PyFacts.

Section Int.
Context `{UnicodeData}.

Lemma decimal_ascii_digit c :
  is_ascii_digit c = true -> decimal c = Some (c - 48).
Proof.
  intros Hc. pose proof Hc as [_ H2]%andb_prop. apply N.leb_le in H2.
  rewrite decimal_basic_latin by lia. unfold ascii_decimal. by rewrite Hc.
Qed.

Lemma int_digits_ascii ds : forall acc b,
  forallb is_ascii_digit ds = true ->
  (ds <> [] \/ b = true) ->
  int_digits ds acc b =
  Some (foldl (fun acc c => (10 * acc + Z.of_N (c - 48))%Z) acc ds).
Proof.
  induction ds as [|c ds IH]; intros acc b Hds Hne; simpl in *.
  - by destruct Hne as [ | -> ].
  - apply andb_prop in Hds as [Hc Hds].
    assert ((c =? 95) = false) as ->.
    { unfold is_ascii_digit in Hc. apply andb_prop in Hc as [_ Hc].
      apply N.leb_le in Hc. apply N.eqb_neq. lia. }
    rewrite (decimal_ascii_digit c Hc). apply IH; [done|by right].
Qed.

Lemma count_digits_ascii ds :
  forallb is_ascii_digit ds = true -> count_digits ds = N.of_nat (length ds).
Proof.
  intros Hds. unfold count_digits. f_equal. f_equal.
  induction ds as [|c ds IH]; simpl in *; [done|].
  apply andb_prop in Hds as [Hc Hds].
  rewrite (decimal_ascii_digit c Hc). simpl. by rewrite IH.
Qed.

End Int.

Lemma ascii_digit_not_space c : is_ascii_digit c = true -> c_isspace c = false.
Proof.
  unfold is_ascii_digit, c_isspace. intros [H1 H2]%andb_prop.
  apply N.leb_le in H1, H2.
  destruct (N.leb_spec 9 c), (N.leb_spec c 13), (N.eqb_spec c 32);
    simpl; try done; lia.
Qed.

Lemma ascii_digits_ascii ds :
  forallb is_ascii_digit ds = true -> forallb (fun c => c <? 128) ds = true.
Proof.
  induction ds as [|c ds IH]; simpl; [done|].
  intros [Hc Hds]%andb_prop. rewrite IH by done.
  unfold is_ascii_digit in Hc. apply andb_prop in Hc as [_ Hc].
  apply N.leb_le in Hc. rewrite andb_true_r. apply N.ltb_lt. lia.
Qed.

Lemma int_lstrip_digits ds :
  forallb is_ascii_digit ds = true -> int_lstrip c_isspace ds = ds.
Proof.
  destruct ds as [|c ds]; simpl; [done|].
  intros [Hc _]%andb_prop. by rewrite ascii_digit_not_space.
Qed.

Lemma forallb_reverse {A} (f : A -> bool) l :
  forallb f (reverse l) = forallb f l.
Proof.
  induction l as [|a l IH]; [done|].
  rewrite reverse_cons, forallb_app, IH. simpl.
  rewrite andb_true_r. apply andb_comm.
Qed.

Lemma int_strip_digits ds :
  forallb is_ascii_digit ds = true -> int_strip c_isspace ds = ds.
Proof.
  intros Hds. unfold int_strip. rewrite (int_lstrip_digits ds) by done.
  rewrite (int_lstrip_digits (reverse ds)).
  - apply reverse_involutive.
  - rewrite forallb_reverse. exact Hds.
Qed.

Section Port.
Context `{UnicodeData}.
Variable max_str_digits : N.

(** [int] of a string of ASCII digits, within the interpreter's limit on
    the length of integer strings. *)
Lemma int_of_str_digits ds :
  ds <> [] -> forallb is_ascii_digit ds = true ->
  (max_str_digits = 0 \/ N.of_nat (length ds) <= N.max 640 max_str_digits) ->
  int_of_str max_str_digits ds = Ok (decimal_value ds).
Proof.
  intros Hne Hds Hlim. unfold int_of_str, int_isspace.
  rewrite ascii_digits_ascii by done. rewrite int_strip_digits by done.
  assert (exists c ds', ds = c :: ds' /\ is_ascii_digit c = true)
    as (c & ds' & -> & Hc).
  { destruct ds as [|c ds']; [done|]. simpl in Hds.
    apply andb_prop in Hds as [Hc _]. by exists c, ds'. }
  assert (c <> 45 /\ c <> 43) as [H45 H43].
  { unfold is_ascii_digit in Hc. apply andb_prop in Hc as [Hc _].
    apply N.leb_le in Hc. lia. }
  assert ((let '(negative, digits) :=
             match c :: ds' with
             | 45 :: rest => (true, rest)
             | 43 :: rest => (false, rest)
             | _ => (false, c :: ds')
             end in
           match int_digits digits 0%Z false with
           | Some v =>
               if (640 <? count_digits digits) && (0 <? max_str_digits)
                  && (max_str_digits <? count_digits digits)
               then Raise (exceeds_limit max_str_digits
                             (count_digits digits))
               else Ok (if negative then (- v)%Z else v)
           | None => Raise invalid_literal
           end) =
          match int_digits (c :: ds') 0%Z false with
          | Some v =>
              if (640 <? count_digits (c :: ds')) && (0 <? max_str_digits)
                 && (max_str_digits <? count_digits (c :: ds'))
              then Raise (exceeds_limit max_str_digits
                            (count_digits (c :: ds')))
              else Ok v
          | None => Raise invalid_literal
          end) as ->.
  { destruct c as [|p]; [done|].
    repeat (destruct p as [p|p|]; try done). }
  rewrite int_digits_ascii by (done || by left).
  rewrite count_digits_ascii by done.
  assert ((640 <? N.of_nat (length (c :: ds'))) && (0 <? max_str_digits)
          && (max_str_digits <? N.of_nat (length (c :: ds'))) = false) as ->.
  { destruct (N.ltb_spec 640 (N.of_nat (length (c :: ds'))));
      destruct (N.ltb_spec 0 max_str_digits);
      destruct (N.ltb_spec max_str_digits (N.of_nat (length (c :: ds'))));
      simpl; try done; lia. }
  done.
Qed.

(** [int] of a string of ASCII digits longer than the interpreter's
    limit. *)
Lemma int_of_str_over_limit ds :
  forallb is_ascii_digit ds = true ->
  640 < N.of_nat (length ds) -> 0 < max_str_digits ->
  max_str_digits < N.of_nat (length ds) ->
  int_of_str max_str_digits ds
  = Raise (exceeds_limit max_str_digits (N.of_nat (length ds))).
Proof.
  intros Hds H640 Hmax Hlim. unfold int_of_str, int_isspace.
  rewrite ascii_digits_ascii by done. rewrite int_strip_digits by done.
  assert (exists c ds', ds = c :: ds' /\ is_ascii_digit c = true)
    as (c & ds' & -> & Hc).
  { destruct ds as [|c ds']; [simpl in H640; lia|]. simpl in Hds.
    apply andb_prop in Hds as [Hc _]. by exists c, ds'. }
  assert (c <> 45 /\ c <> 43) as [H45 H43].
  { unfold is_ascii_digit in Hc. apply andb_prop in Hc as [Hc _].
    apply N.leb_le in Hc. lia. }
  assert ((let '(negative, digits) :=
             match c :: ds' with
             | 45 :: rest => (true, rest)
             | 43 :: rest => (false, rest)
             | _ => (false, c :: ds')
             end in
           match int_digits digits 0%Z false with
           | Some v =>
               if (640 <? count_digits digits) && (0 <? max_str_digits)
                  && (max_str_digits <? count_digits digits)
               then Raise (exceeds_limit max_str_digits
                             (count_digits digits))
               else Ok (if negative then (- v)%Z else v)
           | None => Raise invalid_literal
           end) =
          match int_digits (c :: ds') 0%Z false with
          | Some v =>
              if (640 <? count_digits (c :: ds')) && (0 <? max_str_digits)
                 && (max_str_digits <? count_digits (c :: ds'))
              then Raise (exceeds_limit max_str_digits
                            (count_digits (c :: ds')))
              else Ok v
          | None => Raise invalid_literal
          end) as ->.
  { destruct c as [|p]; [done|].
    repeat (destruct p as [p|p|]; try done). }
  rewrite int_digits_ascii by (done || by left).
  rewrite count_digits_ascii by done.
  apply N.ltb_lt in H640, Hmax, Hlim. by rewrite H640, Hmax, Hlim.
Qed.

(** C9, as amended.  With [SENTIMENT_ANALYZER_PORT] unset, [main] builds
    the server's configuration with port 8004.  With the variable set to a
    non-empty string of ASCII digits, it builds the configuration with the
    number the string denotes as the port, whatever the number, unless the
    string is longer than the interpreter's limit on integer strings: then
    [main] raises [ValueError] and no configuration is built. *)
Theorem main_port (environ : gmap str str) :
  match environ !! lit "SENTIMENT_ANALYZER_PORT" with
  | None =>
      main max_str_digits environ
      = Ok (Build_Config (lit "0.0.0.0") 8004 (lit "info"))
  | Some ds =>
      ds <> [] -> forallb is_ascii_digit ds = true ->
      main max_str_digits environ
      = if (640 <? N.of_nat (length ds)) && (0 <? max_str_digits)
           && (max_str_digits <? N.of_nat (length ds))
        then Raise (exceeds_limit max_str_digits (N.of_nat (length ds)))
        else Ok (Build_Config (lit "0.0.0.0") (decimal_value ds) (lit "info"))
  end.
Proof.
  unfold main, get_port.
  destruct (environ !! lit "SENTIMENT_ANALYZER_PORT") as [ds|]; [|done].
  intros Hne Hds.
  destruct (N.ltb_spec 640 (N.of_nat (length ds))) as [H640|H640];
    destruct (N.ltb_spec 0 max_str_digits) as [Hmax|Hmax];
    destruct (N.ltb_spec max_str_digits (N.of_nat (length ds))) as [Hlim|Hlim];
    cbn [andb];
    try (rewrite int_of_str_digits; [done..|lia]).
  by rewrite int_of_str_over_limit.
Qed.

End Port.

(** C9, as stated, fails: a decimal integer string longer than the
    interpreter's limit (4300 digits unless changed) makes [main] raise
    before a configuration exists. *)
Lemma main_port_over_limit :
  main (H := basic_latin) 4300
       {[ lit "SENTIMENT_ANALYZER_PORT" := replicate 4301 (Re.chr "1") ]}
  = Raise
      (ValueError
         (lit "Exceeds the limit (4300 digits) for integer string "
          ++ lit "conversion: value has 4301 digits; use "
          ++ lit "sys.set_int_max_str_digits() to increase the limit")).
Proof. vm_compute. reflexivity. Qed.

Lemma main_port_witness :
  main (H := basic_latin) 4300 ∅
  = Ok (Build_Config (lit "0.0.0.0") 8004 (lit "info")) /\
  main (H := basic_latin) 4300
       {[ lit "SENTIMENT_ANALYZER_PORT" := lit "8080" ]}
  = Ok (Build_Config (lit "0.0.0.0") 8080 (lit "info")) /\
  main (H := basic_latin) 4300
       {[ lit "SENTIMENT_ANALYZER_PORT" := lit "70000" ]}
  = Ok (Build_Config (lit "0.0.0.0") 70000 (lit "info")).
Proof.
  split_and!.
  - exact (main_port (H := basic_latin) 4300 ∅).
  - pose proof (main_port (H := basic_latin) 4300
                  {[ lit "SENTIMENT_ANALYZER_PORT" := lit "8080" ]}) as Hm.
    rewrite lookup_singleton_eq in Hm. apply Hm.
    + done.
    + vm_compute. reflexivity.
  - pose proof (main_port (H := basic_latin) 4300
                  {[ lit "SENTIMENT_ANALYZER_PORT" := lit "70000" ]}) as Hm.
    rewrite lookup_singleton_eq in Hm. apply Hm.
    + done.
    + vm_compute. reflexivity.
Defined.

End MainFacts.

Module ExtractMore.
Import Py Re TaskManager Samples Notions PyFacts ReFacts ExtractFacts.

(** *** White space left by [str.strip] *)

Lemma lstrip_head s c s' : lstrip s = c :: s' -> isspace c = false.
Proof.
  induction s as [|d s IH]; simpl; [done|].
  destruct (isspace d) eqn:Hd; [done|]. by intros [= <- _].
Qed.

Lemma lstrip_suffix s : exists pre, s = pre ++ lstrip s.
Proof.
  induction s as [|d s [pre IH]]; simpl; [by exists []|].
  destruct (isspace d); [|by exists []].
  exists (d :: pre). simpl. by f_equal.
Qed.

Lemma rstrip_prefix s : exists post, s = rstrip s ++ post.
Proof.
  unfold rstrip. destruct (lstrip_suffix (reverse s)) as [pre Hpre].
  exists (reverse pre).
  rewrite <- reverse_app, <- Hpre. by rewrite reverse_involutive.
Qed.

Lemma rstrip_last s c : last (rstrip s) = Some c -> isspace c = false.
Proof.
  unfold rstrip. rewrite last_reverse.
  destruct (lstrip (reverse s)) as [|d l] eqn:E; [done|].
  simpl. intros [= <-]. by eapply lstrip_head.
Qed.

Lemma strip_trimmed s : trimmed (strip s).
Proof.
  unfold strip. split; [|apply rstrip_last].
  intros c Hc. destruct (rstrip_prefix (lstrip s)) as [post Hpost].
  destruct (rstrip (lstrip s)) as [|d l]; [done|].
  simpl in Hc. injection Hc as ->. by eapply lstrip_head.
Qed.

Lemma truthy_nonempty s : truthy s = true -> s <> [].
Proof. by destruct s. Qed.

Lemma bullet_markers_clean lines : forall markers ms,
  Forall (fun m => m <> [] /\ trimmed m) markers ->
  bullet_markers lines markers = Ok ms ->
  Forall (fun m => m <> [] /\ trimmed m) ms.
Proof.
  induction lines as [|line rest IH]; intros markers ms Hm; simpl.
  - by intros [= <-].
  - destruct (contains (chr "-") line); [|by apply IH].
    destruct (index (split1 (chr "-") line) 1) as [piece|e]; simpl; [|done].
    destruct (truthy (strip piece)) eqn:Ht; [|by apply IH].
    apply IH. apply Forall_app. split; [done|].
    apply Forall_singleton. split; [by apply truthy_nonempty|].
    apply strip_trimmed.
Qed.

Lemma split_markers_clean captured ms :
  split_markers captured = Ok ms ->
  Forall (fun m => m <> [] /\ trimmed m) ms.
Proof.
  unfold split_markers.
  destruct (contains (chr "-") _).
  { by apply bullet_markers_clean. }
  destruct (contains (chr ",") _).
  { intros [= <-]. apply Forall_forall. intros m Hm%list_elem_of_In.
    apply in_map_iff in Hm as (x & <- & Hx). apply filter_In in Hx as [_ Hx].
    split; [by apply truthy_nonempty|apply strip_trimmed]. }
  destruct (truthy _) eqn:Ht; intros [= <-]; [|done].
  apply Forall_singleton. split; [by apply truthy_nonempty|apply strip_trimmed].
Qed.

Section Matcher.
Context `{UnicodeData}.
Variable fl : flags.

Lemma star_inv_all {A : Type} cl s (k : str -> str -> option A) a :
  star fl cl s k = Some a ->
  exists w s', s = w ++ s' /\ Forall (fun c => cmatch fl cl c = true) w /\
               k w s' = Some a.
Proof.
  revert k. induction s as [|c s IH]; intros k Hs; cbn [star] in Hs.
  - by exists [], [].
  - destruct (cmatch fl cl c) eqn:Hc; [|by exists [], (c :: s)].
    destruct (star fl cl s _) eqn:E; [|by exists [], (c :: s)].
    injection Hs as ->. apply IH in E as (w & s' & -> & Hw & Hk).
    exists (c :: w), s'. split_and!; [done|by apply Forall_cons|done].
Qed.

End Matcher.

Section Extract.
Context `{UnicodeData}.

Lemma percent_literal c :
  cmatch ignorecase (Lit (chr "%")) c = true -> c = 37.
Proof.
  change (cmatch ignorecase (Lit (chr "%")) c) with (c =? 37).
  by intros ?%N.eqb_eq.
Qed.

Lemma digit_decimal fl c :
  cmatch fl Digit c = true -> is_Some (decimal c).
Proof. simpl. by intros ?%bool_decide_eq_true. Qed.

(** Group 1 of a match of the confidence pattern: a run of decimal digits,
    with or without a percent sign after it. *)
Lemma confidence_group text m w :
  search ignorecase confidence_re text = Some m -> group1 m = Some w ->
  exists ds, ds <> [] /\ Forall (fun c => is_Some (decimal c)) ds /\
             (w = ds \/ w = ds ++ lit "%").
Proof.
  intros (pre & rest & _ & Hm)%search_inv Hw.
  unfold match_here, confidence_re, Plus in Hm. cbn [run] in Hm.
  apply literal_inv in Hm as (w1 & s1 & _ & _ & Hm).
  apply star_inv in Hm as (w2 & s2 & _ & Hm).
  destruct s2 as [|c s']; [done|].
  destruct (cmatch ignorecase Digit c) eqn:Hc; [|done].
  apply digit_decimal in Hc.
  destruct (star ignorecase Digit s' _) as [m'|] eqn:E.
  - injection Hm as ->.
    apply star_inv_all in E as (w3 & s3 & _ & Hw3 & Hk).
    destruct s3 as [|c0 s3]; [done|].
    destruct (cmatch ignorecase (Lit (chr "%")) c0) eqn:Hc0; [|done].
    apply percent_literal in Hc0 as ->. injection Hk as <-.
    simpl in Hw. injection Hw as <-.
    exists (c :: w3). split_and!; [done| |by right].
    apply Forall_cons. split; [done|].
    eapply Forall_impl; [exact Hw3|]. intros ?. apply digit_decimal.
  - apply star_inv_all in Hm as (w3 & s3 & _ & Hw3 & [= <-]).
    simpl in Hw. injection Hw as <-.
    exists (c :: w3). split_and!; [done| |by left].
    apply Forall_cons. split; [done|].
    eapply Forall_impl; [exact Hw3|]. intros ?. apply digit_decimal.
Qed.

Lemma percent_not_decimal : decimal (chr "%") = None.
Proof. rewrite decimal_basic_latin; by vm_compute. Qed.

Lemma endswith_digits ds :
  Forall (fun c => is_Some (decimal c)) ds -> endswith (chr "%") ds = false.
Proof.
  intros Hds. unfold endswith. destruct (last ds) as [d|] eqn:E; [|done].
  apply last_Some in E as [l ->]. apply Forall_app in Hds as [_ Hd].
  rewrite Forall_singleton in Hd. apply N.eqb_neq. intros Heq.
  rewrite Heq, percent_not_decimal in Hd. by destruct Hd.
Qed.

Lemma endswith_snoc c s : endswith c (s ++ [c]) = true.
Proof. unfold endswith. rewrite last_snoc. apply N.eqb_refl. Qed.

(** X1.  [_extract_sentiment_data] never raises, whatever the text: the
    index into the pieces of a bullet line is guarded by the test for the
    dash, and group 1 takes part in every match of the four patterns. *)
Theorem extract_never_raises (text : str) :
  exists r, _extract_sentiment_data text = Ok r.
Proof. destruct (extract_fields text) as (r & Hr & _). by exists r. Qed.

(** X2.  The four fields are extracted independently: each one is its
    documented default whenever its own pattern has no match in the text,
    whatever the other patterns find. *)
Theorem extract_defaults (text : str) :
  exists r, _extract_sentiment_data text = Ok r /\
    (search ignorecase sentiment_re text = None ->
     sentiment r = lit "unknown") /\
    (search ignorecase confidence_re text = None ->
     confidence r = lit "0%") /\
    (search ignorecase_dotall markers_re text = None ->
     key_markers r = []) /\
    (search ignorecase_dotall analysis_re text = None ->
     analysis r = lit "No analysis available").
Proof.
  destruct (extract_fields text) as (r & Hr & Hs & Hc & Hk & Ha).
  exists r. split_and!; [done|..]; intros Hnone.
  - by rewrite Hs, Hnone.
  - by rewrite Hc, Hnone.
  - by rewrite Hnone in Hk.
  - by rewrite Ha, Hnone.
Qed.

(** X3.  The confidence returned is always a non-empty run of decimal
    digits followed by one percent sign. *)
Theorem extract_confidence_format (text : str) :
  exists r ds,
    _extract_sentiment_data text = Ok r /\
    confidence r = ds ++ lit "%" /\
    ds <> [] /\ Forall (fun c => is_Some (decimal c)) ds.
Proof.
  destruct (extract_fields text) as (r & Hr & _ & Hc & _).
  destruct (search ignorecase confidence_re text) as [m|] eqn:E.
  - pose proof E as [Hsome _]%(search_group1 _ (fun _ => True));
      [|by apply Forall_true].
    destruct Hsome as [w Hw]; [done|].
    destruct (confidence_group text m w E Hw) as (ds & Hne & Hds & Hcase).
    exists r, ds. split_and!; [done| |done..].
    rewrite Hc, Hw. simpl. destruct Hcase as [-> | ->].
    + by rewrite endswith_digits.
    + change (lit "%") with [chr "%"]. by rewrite endswith_snoc.
  - exists r, (lit "0"). split_and!; [done|by rewrite Hc|done|].
    apply Forall_singleton. by rewrite decimal_basic_latin.
Qed.

(** X4.  Every key marker returned is non-empty and neither begins nor
    ends with white space; the analysis neither begins nor ends with white
    space. *)
Theorem extract_trimmed (text : str) :
  exists r, _extract_sentiment_data text = Ok r /\
    Forall (fun m => m <> [] /\ trimmed m) (key_markers r) /\
    trimmed (analysis r).
Proof.
  destruct (extract_fields text) as (r & Hr & _ & _ & Hk & Ha).
  exists r. split_and!; [done| |].
  - destruct (search ignorecase_dotall markers_re text).
    + by eapply split_markers_clean.
    + by rewrite Hk.
  - rewrite Ha. destruct (search ignorecase_dotall analysis_re text).
    + apply strip_trimmed.
    + split; intros c; vm_compute; by intros [= <-].
Qed.

End Extract.

(** X5 is [ExtractFacts.extract_sentiment_basic_latin]; here it is applied
    to a reply in upper case. *)
Lemma extract_sentiment_basic_latin_witness :
  exists r,
    _extract_sentiment_data (H := basic_latin)
      (lit "OVERALL SENTIMENT:   NEGATIVE") = Ok r /\
    sentiment r
      ∈ [lit "positive"; lit "negative"; lit "neutral"; lit "unknown"].
Proof.
  apply (extract_sentiment_basic_latin (H := basic_latin)
           (lit "OVERALL SENTIMENT:   NEGATIVE")).
  apply basic_latin_text. vm_compute. reflexivity.
Defined.

End ExtractMore.

(** ** More on [process_task] *)

Module ProcessTaskMore.
Import Py Re TaskManager Samples EventSamples ReFacts PyFacts ExtractFacts
  ProcessTaskFacts.

Section ProcessTask.
Context `{UnicodeData}.
Context {raw_event : Type} (model_dump : Event -> raw_event).

(** The loop variables after a stream whose last event with a text to take
    is [event]. *)
Lemma consume_last_final_text evs event t after :
  forall before final_message raw_events sd,
  fault evs = None ->
  yielded evs = before ++ event :: after ->
  final_text event = Some t ->
  Forall (fun e => final_text e = None) after ->
  exists sd',
    _extract_sentiment_data t = Ok sd' /\
    consume model_dump evs final_message raw_events sd =
    Ok (t, raw_events ++ (model_dump <$> yielded evs), sd').
Proof.
  induction evs as [|e rest IH|e]; intros before fm raw sd Hf Hy Ht Hafter;
    simpl in *.
  - by destruct before.
  - destruct before as [|b before]; simpl in Hy.
    + injection Hy as -> Hrest. rewrite Ht.
      destruct (extract_total t) as [sd' Hsd]. exists sd'. rewrite Hsd. simpl.
      rewrite consume_no_final_text; [|done|by rewrite Hrest].
      by rewrite <- app_assoc.
    + injection Hy as -> Hrest.
      destruct (final_text b) as [tb|].
      * destruct (extract_total tb) as [sdb ->]. simpl.
        destruct (IH before tb (raw ++ [model_dump b]) sdb)
          as (sd' & Hsd & ->); [done..|].
        exists sd'. by rewrite <- app_assoc.
      * destruct (IH before fm (raw ++ [model_dump b]) sd)
          as (sd' & Hsd & ->); [done..|].
        exists sd'. by rewrite <- app_assoc.
  - done.
Qed.

(** X6.  [process_task] answers with status ["success"] exactly when the
    runner's event stream ends without raising. *)
Theorem process_task_success_iff
    run_async uuid4 sessions message context sid :
  (exists r,
     (process_task model_dump run_async uuid4 sessions message context sid).1
       = Ok r /\ status r = lit "success") <->
  fault (run_async
           (get_or_create_session sessions (get_user_id context)
                                  (resolve_session_id uuid4 sid))
           (get_user_id context) (resolve_session_id uuid4 sid)
           (request_content message)).1 = None.
Proof.
  rewrite process_task_response. unfold run_agent.
  set (evs := (run_async _ _ _ _).1).
  pose proof (consume_fault model_dump evs
                (lit "(No response generated)") [] default_sentiment_data)
    as Hc.
  destruct (fault evs) as [e|].
  - rewrite Hc. split; [|done]. intros (r & Hr & Hs).
    destruct (isinstance e (lit "Exception")); [|done].
    injection Hr as <-. by vm_compute in Hs.
  - destruct Hc as (fm & sd & ->). split; [done|]. intros _. by eexists.
Qed.

(** X7.  A success response carries the dumps of the last three events of
    the stream, in order, and of all of them when there are fewer. *)
Theorem process_task_raw_events
    run_async uuid4 sessions message context sid r :
  (process_task model_dump run_async uuid4 sessions message context sid).1
    = Ok r ->
  status r = lit "success" ->
  exists sd raw_events,
    data r = SuccessData sd raw_events /\
    raw_events `suffix_of`
      (model_dump <$>
       yielded (run_async
           (get_or_create_session sessions (get_user_id context)
                                  (resolve_session_id uuid4 sid))
           (get_user_id context) (resolve_session_id uuid4 sid)
           (request_content message)).1) /\
    length raw_events =
      (3 `min`
       length (yielded (run_async
           (get_or_create_session sessions (get_user_id context)
                                  (resolve_session_id uuid4 sid))
           (get_user_id context) (resolve_session_id uuid4 sid)
           (request_content message)).1))%nat.
Proof.
  rewrite process_task_response. unfold run_agent.
  set (evs := (run_async _ _ _ _).1).
  pose proof (consume_fault model_dump evs
                (lit "(No response generated)") [] default_sentiment_data)
    as Hc.
  destruct (fault evs) as [e|].
  - rewrite Hc. destruct (isinstance e (lit "Exception")); [|done].
    intros [= <-] Hs. by vm_compute in Hs.
  - destruct Hc as (fm & sd & ->). intros [= <-] _. cbn [data].
    exists sd, (last_n 3 (model_dump <$> yielded evs)).
    split_and!; [done|apply suffix_drop|].
    unfold last_n. rewrite length_drop, length_fmap. lia.
Qed.

(** X8.  The answer is taken from the last event that is a final response
    with model-role content and a non-empty first-part text: its text is
    the message, and the sentiment data is extracted from that text. *)
Theorem process_task_last_final_text
    run_async uuid4 sessions message context sid before event after t :
  fault (run_async
           (get_or_create_session sessions (get_user_id context)
                                  (resolve_session_id uuid4 sid))
           (get_user_id context) (resolve_session_id uuid4 sid)
           (request_content message)).1 = None ->
  yielded (run_async
           (get_or_create_session sessions (get_user_id context)
                                  (resolve_session_id uuid4 sid))
           (get_user_id context) (resolve_session_id uuid4 sid)
           (request_content message)).1 = before ++ event :: after ->
  final_text event = Some t ->
  Forall (fun e => final_text e = None) after ->
  exists sd raw_events,
    _extract_sentiment_data t = Ok sd /\
    (process_task model_dump run_async uuid4 sessions message context sid).1
    = Ok (Response t (lit "success") (SuccessData sd raw_events)).
Proof.
  intros Hf Hy Ht Hafter. rewrite process_task_response. unfold run_agent.
  destruct (consume_last_final_text _ event t after before
              (lit "(No response generated)") [] default_sentiment_data
              Hf Hy Ht Hafter) as (sd & Hsd & ->).
  eexists sd, _. by split.
Qed.

(** X9.  A non-empty [session_id] passed by the caller is the one the agent
    runs under: no identifier is generated, and the outcome does not depend
    on what [uuid4] would have returned. *)
Theorem process_task_supplied_session_id
    run_async uuid4 uuid4' sessions message context sid :
  truthy sid = true ->
  process_task model_dump run_async uuid4 sessions message context (Some sid)
  = (run_agent model_dump
       (run_async (get_or_create_session sessions (get_user_id context) sid)
                  (get_user_id context) sid (request_content message)).1,
     (run_async (get_or_create_session sessions (get_user_id context) sid)
                (get_user_id context) sid (request_content message)).2) /\
  process_task model_dump run_async uuid4 sessions message context (Some sid)
  = process_task model_dump run_async uuid4' sessions message context
                 (Some sid).
Proof.
  intros Hsid. unfold process_task, resolve_session_id. rewrite Hsid.
  by destruct (run_async _ _ _ _).
Qed.

End ProcessTask.

Lemma process_task_raw_events_witness :
  exists sd raw_events,
    data (Response (lit "(No response generated)") (lit "success")
            (SuccessData default_sentiment_data
               [Build_Event true None; Build_Event false None;
                Build_Event true None]))
      = SuccessData sd raw_events /\
    raw_events `suffix_of`
      (id <$> yielded (constant_runner four_events ∅ (lit "default_a2a_user")
                         (lit "5f0c") (request_content (lit "hello"))).1) /\
    length raw_events = 3%nat.
Proof.
  apply (process_task_raw_events (H := basic_latin) id
           (constant_runner four_events) (lit "5f0c") ∅ (lit "hello") ∅ None).
  - vm_compute. reflexivity.
  - reflexivity.
Defined.

Lemma process_task_last_final_text_witness :
  exists sd raw_events,
    _extract_sentiment_data (H := basic_latin)
      (lit "Overall Sentiment: neutral") = Ok sd /\
    (process_task (H := basic_latin) id (constant_runner answered_events)
                  (lit "5f0c") ∅ (lit "hello") ∅ None).1
    = Ok (Response (lit "Overall Sentiment: neutral") (lit "success")
            (SuccessData sd raw_events)).
Proof.
  apply (process_task_last_final_text (H := basic_latin) id
           (constant_runner answered_events) (lit "5f0c") ∅ (lit "hello") ∅
           None [Build_Event false None]
           (model_event (lit "Overall Sentiment: neutral"))
           [Build_Event true None]).
  - reflexivity.
  - reflexivity.
  - vm_compute. reflexivity.
  - apply Forall_cons. split; [reflexivity|apply Forall_nil_2].
Defined.

Lemma process_task_supplied_session_id_witness :
  process_task (H := basic_latin) id (constant_runner Done)
               (lit "5f0c") ∅ (lit "hello") ∅ (Some (lit "conv-1"))
  = process_task (H := basic_latin) id (constant_runner Done)
                 (lit "77ab") ∅ (lit "hello") ∅ (Some (lit "conv-1")).
Proof.
  apply (process_task_supplied_session_id (H := basic_latin) id
           (constant_runner Done) (lit "5f0c") (lit "77ab") ∅ (lit "hello") ∅
           (lit "conv-1")).
  reflexivity.
Defined.

End ProcessTaskMore.

(** ** More on the server's port *)

Module MainMore.
Import Py Main Notions PyFacts MainFacts.

(** The sign [int] reads off the stripped text. *)
Lemma int_sign_split `{UnicodeData} (max_str_digits : N) (s : str) :
  int_of_str max_str_digits s =
  let body := int_strip (int_isspace s) s in
  let negative := bool_decide (head body = Some 45) in
  let digits :=
    if bool_decide (head body = Some 45) || bool_decide (head body = Some 43)
    then drop 1 body else body in
  match int_digits digits 0%Z false with
  | Some v =>
      if (640 <? count_digits digits) && (0 <? max_str_digits)
         && (max_str_digits <? count_digits digits)
      then Raise (exceeds_limit max_str_digits (count_digits digits))
      else Ok (if negative then (- v)%Z else v)
  | None => Raise invalid_literal
  end.
Proof.
  unfold int_of_str. cbv zeta.
  destruct (int_strip (int_isspace s) s) as [|c body]; [done|].
  destruct c as [|p]; [done|].
  repeat (destruct p as [p|p|]; try done).
Qed.

Lemma int_lstrip_keeps (sp P : char -> bool) s :
  (forall c, P c = true -> sp c = false) ->
  existsb P s = true -> existsb P (int_lstrip sp s) = true.
Proof.
  intros HP. induction s as [|c s IH]; simpl; [done|].
  destruct (sp c) eqn:Hsp; [|done].
  destruct (P c) eqn:HPc; [by rewrite (HP c HPc) in Hsp|]. by apply IH.
Qed.

Lemma existsb_reverse {A} (P : A -> bool) l :
  existsb P (reverse l) = existsb P l.
Proof.
  induction l as [|a l IH]; [done|].
  rewrite reverse_cons, existsb_app, IH. simpl.
  rewrite orb_false_r. apply orb_comm.
Qed.

Lemma int_strip_keeps (sp P : char -> bool) s :
  (forall c, P c = true -> sp c = false) ->
  existsb P s = true -> existsb P (int_strip sp s) = true.
Proof.
  intros HP Hs. unfold int_strip. rewrite existsb_reverse.
  apply int_lstrip_keeps; [done|]. rewrite existsb_reverse.
  by apply int_lstrip_keeps.
Qed.

Section Int.
Context `{UnicodeData}.

Lemma stray_not_space s c : stray c = true -> int_isspace s c = false.
Proof.
  unfold stray, int_isspace. intros Hc.
  repeat (apply andb_prop in Hc as [Hc ?]).
  assert (isspace c = false) as Hsp by (by apply negb_true_iff).
  assert (c_isspace c = false) as Hc_sp.
  { unfold isspace in Hsp. unfold c_isspace.
    destruct ((9 <=? c) && (c <=? 13)); [done|]. simpl in *.
    destruct (N.eqb_spec c 32) as [->|]; [done|]. done. }
  destruct (forallb _ s); [done|]. by destruct (c <? 127).
Qed.

Lemma int_digits_stray s : forall acc b,
  existsb stray s = true -> int_digits s acc b = None.
Proof.
  induction s as [|c s IH]; intros acc b; simpl; [done|].
  destruct (stray c) eqn:Hc; simpl.
  - intros _. unfold stray in Hc.
    repeat (apply andb_prop in Hc as [Hc ?]).
    apply bool_decide_eq_true in Hc.
    assert ((c =? 95) = false) as -> by (by apply negb_true_iff).
    by rewrite Hc.
  - intros Hs. destruct (c =? 95).
    + destruct b; [by apply IH|done].
    + destruct (decimal c); [by apply IH|done].
Qed.

Lemma existsb_drop_sign (body : str) :
  existsb stray body = true ->
  existsb stray
    (if bool_decide (head body = Some 45) || bool_decide (head body = Some 43)
     then drop 1 body else body) = true.
Proof.
  destruct (_ || _) eqn:E; [|done].
  destruct body as [|c body]; [done|]. simpl.
  destruct (stray c) eqn:Hc; [|done]. exfalso.
  unfold stray in Hc. repeat (apply andb_prop in Hc as [Hc ?]).
  apply orb_prop in E as [E|E]; apply bool_decide_eq_true in E;
    injection E as ->; done.
Qed.

Variable max_str_digits : N.

Lemma int_of_str_malformed s :
  s = [] \/ existsb stray s = true ->
  int_of_str max_str_digits s = Raise invalid_literal.
Proof.
  intros Hs. rewrite int_sign_split. cbv zeta.
  destruct Hs as [-> | Hs]; [done|].
  rewrite int_digits_stray; [done|].
  apply existsb_drop_sign, int_strip_keeps; [|done].
  intros c. apply stray_not_space.
Qed.

(** X11.  A value of [SENTIMENT_ANALYZER_PORT] that is empty, or contains a
    character that is no decimal digit, underscore, sign or white space,
    makes [main] raise [ValueError]: there is no fall-back to the default
    port. *)
Theorem main_port_malformed (environ : gmap str str) s :
  environ !! lit "SENTIMENT_ANALYZER_PORT" = Some s ->
  s = [] \/ existsb stray s = true ->
  exists e, main max_str_digits environ = Raise e /\
            exn_name e = lit "ValueError".
Proof.
  intros Henv Hs. unfold main, get_port. rewrite Henv.
  rewrite int_of_str_malformed by done. by eexists.
Qed.

End Int.

Lemma main_port_malformed_witness :
  exists e,
    main (H := basic_latin) 4300
         {[ lit "SENTIMENT_ANALYZER_PORT" := lit "80a4" ]} = Raise e /\
    exn_name e = lit "ValueError".
Proof.
  apply (main_port_malformed (H := basic_latin) 4300
           {[ lit "SENTIMENT_ANALYZER_PORT" := lit "80a4" ]} (lit "80a4")).
  - apply lookup_singleton_eq.
  - right. vm_compute. reflexivity.
Defined.





Section Signed.
Context `{UnicodeData}.
Variable max_str_digits : N.





End Signed.


End MainMore.

(** ** More on the dashboard's [send_message] *)

Module AppMore.
Import Py App Samples ReplySamples.

Lemma record_reply_inv response_data p p' :
  record_reply response_data p = Ok p' ->
  exists content sd,
    p' = append_message
           (ChatMessage (lit "assistant") content (Some sd)) p.
Proof.
  unfold record_reply. intros Hr.
  destruct (get response_data (lit "message") _) as [am|];
    simpl in Hr; [|done].
  destruct (get response_data (lit "data") _) as [d|]; simpl in Hr; [|done].
  destruct (get d _ _) as [sd|]; simpl in Hr; [|done].
  injection Hr as <-. by eexists _, _.
Qed.

Lemma handle_inv e p r p' :
  handle e p = (r, p') ->
  (r = Raise e /\ p' = p /\ isinstance e (lit "Exception") = false) \/
  exists banner text,
    r = Ok false /\
    p' = append_message (ChatMessage (lit "assistant") (JStr text) None)
           (st_error banner p).
Proof.
  unfold handle.
  destruct (isinstance e RequestException).
  { intros [= <- <-]. right. by eexists _, _. }
  destruct (isinstance e JSONDecodeError).
  { intros [= <- <-]. right. by eexists _, _. }
  destruct (isinstance e (lit "Exception")).
  { intros [= <- <-]. right. by eexists _, _. }
  intros [= <- <-]. by left.
Qed.

Lemma get_raises d k dflt x :
  get d k dflt = Raise x -> isinstance x (lit "Exception") = true.
Proof. destruct d; simpl; try done; by intros [= <-]. Qed.

Lemma record_reply_raises response_data p x :
  record_reply response_data p = Raise x ->
  isinstance x (lit "Exception") = true.
Proof.
  unfold record_reply. intros Hr.
  destruct (get response_data (lit "message") _) as [am|y] eqn:E1;
    simpl in Hr; [|injection Hr as ->; by eapply get_raises].
  destruct (get response_data (lit "data") _) as [d|y] eqn:E2;
    simpl in Hr; [|injection Hr as ->; by eapply get_raises].
  destruct (get d _ _) as [sd|y] eqn:E3; simpl in Hr;
    [done|injection Hr as ->; by eapply get_raises].
Qed.

Section SendMessage.
Variable post : str -> json -> exchange.

(** X13.  When the agent replies with a JSON object (whose [data], if
    present, is an object too), [send_message] returns [True], shows no
    banner, and appends the user's message and an assistant message whose
    content is the reply's [message] (["(No analysis received)"] when
    absent) and whose sentiment data is [data.sentiment_analysis] (an
    empty object when absent). *)
Theorem send_message_reply message p o d :
  truthy (session_id p) = true ->
  post (API_BASE_URL ++ lit "/run")
       (payload message (user_id p) (session_id p)) = Replied (JObj o) ->
  default (JObj ∅) (o !! lit "data") = JObj d ->
  send_message post message p =
  (Ok true,
   Page (user_id p) (session_id p)
     (messages p ++
      [ChatMessage (lit "user") (JStr message) None;
       ChatMessage (lit "assistant")
         (default (JStr (lit "(No analysis received)")) (o !! lit "message"))
         (Some (default (JObj ∅) (d !! lit "sentiment_analysis")))])
     (errors p)).
Proof.
  intros Hsid Hpost Hdata. unfold send_message. rewrite Hsid.
  cbn [negb append_message user_id session_id]. rewrite Hpost.
  unfold record_reply. cbn [get mbind result_bind]. rewrite Hdata.
  cbn [get mbind result_bind append_message user_id session_id messages
       errors].
  unfold append_message. cbn [user_id session_id messages errors].
  by rewrite <- app_assoc.
Qed.

(** X14.  Whatever the agent's end does, a call with a non-empty session
    id that returns extends the chat history by exactly the user's message
    followed by one assistant message, and leaves the user and session ids
    alone; it returns [True] with no new banner and sentiment data
    attached, or [False] with exactly one new banner and none attached. *)
Theorem send_message_history message p b p' :
  truthy (session_id p) = true ->
  send_message post message p = (Ok b, p') ->
  user_id p' = user_id p /\ session_id p' = session_id p /\
  exists reply,
    messages p' =
      messages p ++ [ChatMessage (lit "user") (JStr message) None; reply] /\
    role reply = lit "assistant" /\
    if b then errors p' = errors p /\ is_Some (sentiment_data reply)
    else (exists banner, errors p' = errors p ++ [banner]) /\
         sentiment_data reply = None.
Proof.
  intros Hsid. unfold send_message. rewrite Hsid.
  cbn [negb append_message user_id session_id].
  set (p1 := append_message _ p).
  assert (forall e, handle e p1 = (Ok b, p') ->
            user_id p' = user_id p /\ session_id p' = session_id p /\
            exists reply,
              messages p' =
                messages p ++
                [ChatMessage (lit "user") (JStr message) None; reply] /\
              role reply = lit "assistant" /\
              if b then errors p' = errors p /\ is_Some (sentiment_data reply)
              else (exists banner, errors p' = errors p ++ [banner]) /\
                   sentiment_data reply = None) as Hhandle.
  { intros e He.
    apply handle_inv in He as [(Hr & _)|(banner & text & Hr & ->)]; [done|].
    injection Hr as ->. split_and!; [done..|].
    eexists.
    split_and!; [subst p1; simpl; by rewrite <- app_assoc|done|by eexists|done]. }
  destruct (post _ _) as [e|response_data]; [by apply Hhandle|].
  destruct (record_reply response_data p1) as [p2|e] eqn:E;
    [|by apply Hhandle].
  intros [= <- <-]. apply record_reply_inv in E as (content & sd & ->).
  split_and!; [done..|]. eexists.
  split_and!; [subst p1; simpl; by rewrite <- app_assoc|done..].
Qed.

(** X15.  [send_message] raises only what the agent's end raised, and only
    when that is no instance of [Exception]; the user's message has been
    appended to the history by then and stays unanswered. *)
Theorem send_message_raises message p e p' :
  send_message post message p = (Raise e, p') ->
  isinstance e (lit "Exception") = false /\
  post (API_BASE_URL ++ lit "/run")
       (payload message (user_id p) (session_id p)) = Failed e /\
  p' = append_message (ChatMessage (lit "user") (JStr message) None) p.
Proof.
  unfold send_message. destruct (negb _); [done|].
  cbn [append_message user_id session_id].
  set (p1 := append_message _ p).
  destruct (post _ _) as [e'|response_data].
  - intros [(Hr & -> & He)|(? & ? & ? & _)]%handle_inv; [|done].
    by injection Hr as ->.
  - destruct (record_reply response_data p1) as [p2|e'] eqn:E; [done|].
    intros [(Hr & -> & He)|(? & ? & ? & _)]%handle_inv; [|done].
    injection Hr as ->. apply record_reply_raises in E. congruence.
Qed.

(** X16.  A reply whose JSON body is not an object is handled like any
    other failure: [send_message] returns [False] and does not raise. *)
Theorem send_message_reply_not_object message p response_data :
  truthy (session_id p) = true ->
  post (API_BASE_URL ++ lit "/run")
       (payload message (user_id p) (session_id p)) = Replied response_data ->
  (forall o, response_data <> JObj o) ->
  exists p', send_message post message p = (Ok false, p').
Proof.
  intros Hsid Hpost Hobj. unfold send_message. rewrite Hsid.
  cbn [negb append_message user_id session_id]. rewrite Hpost.
  destruct response_data; try (by eexists); by destruct (Hobj o).
Qed.

End SendMessage.

Lemma send_message_reply_witness :
  send_message (replying (JObj {[ lit "message" := JStr (lit "fine") ]}))
               (lit "I love it") fresh_page =
  (Ok true,
   Page (lit "user-1d2c") (lit "conv-90ab")
     ([] ++
      [ChatMessage (lit "user") (JStr (lit "I love it")) None;
       ChatMessage (lit "assistant")
         (default (JStr (lit "(No analysis received)"))
            (({[ lit "message" := JStr (lit "fine") ]} : gmap str json)
               !! lit "message"))
         (Some (default (JObj ∅)
                  ((∅ : gmap str json) !! lit "sentiment_analysis")))])
     []).
Proof.
  apply (send_message_reply
           (replying (JObj {[ lit "message" := JStr (lit "fine") ]}))
           (lit "I love it") fresh_page
           {[ lit "message" := JStr (lit "fine") ]} ∅).
  - reflexivity.
  - reflexivity.
  - vm_compute. reflexivity.
Defined.

Lemma send_message_history_witness :
  exists reply,
    [ChatMessage (lit "user") (JStr (lit "I love it")) None;
     ChatMessage (lit "assistant")
       (JStr (lit "Error: Could not connect to agent. " ++ lit "refused"))
       None]
    = [] ++ [ChatMessage (lit "user") (JStr (lit "I love it")) None; reply] /\
    role reply = lit "assistant" /\
    (exists banner,
       [lit "Network or HTTP error: " ++ lit "refused"] = [] ++ [banner]) /\
    sentiment_data reply = None.
Proof.
  apply (send_message_history
           (unreachable (ConnectionError (lit "refused")))
           (lit "I love it") fresh_page false
           (Page (lit "user-1d2c") (lit "conv-90ab")
              [ChatMessage (lit "user") (JStr (lit "I love it")) None;
               ChatMessage (lit "assistant")
                 (JStr (lit "Error: Could not connect to agent. "
                            ++ lit "refused")) None]
              [lit "Network or HTTP error: " ++ lit "refused"])).
  - reflexivity.
  - vm_compute. reflexivity.
Defined.

Lemma send_message_raises_witness :
  isinstance KeyboardInterrupt (lit "Exception") = false /\
  unreachable KeyboardInterrupt (API_BASE_URL ++ lit "/run")
    (payload (lit "I love it") (user_id fresh_page) (session_id fresh_page))
  = Failed KeyboardInterrupt /\
  Page (lit "user-1d2c") (lit "conv-90ab")
       [ChatMessage (lit "user") (JStr (lit "I love it")) None] []
  = append_message (ChatMessage (lit "user") (JStr (lit "I love it")) None)
      fresh_page.
Proof.
  apply (send_message_raises (unreachable KeyboardInterrupt)
           (lit "I love it") fresh_page KeyboardInterrupt
           (Page (lit "user-1d2c") (lit "conv-90ab")
              [ChatMessage (lit "user") (JStr (lit "I love it")) None] [])).
  vm_compute. reflexivity.
Defined.

Lemma send_message_reply_not_object_witness :
  exists p',
    send_message (replying (JList [])) (lit "I love it") fresh_page
    = (Ok false, p').
Proof.
  apply (send_message_reply_not_object (replying (JList []))
           (lit "I love it") fresh_page (JList [])).
  - reflexivity.
  - reflexivity.
  - done.
Defined.

End AppMore.

(** ** The unified dashboard *)

Module DashboardFacts.
Import Py App Dashboard Notions ExtractMore.

Lemma startswith_bullet line :
  startswith (lit "- ") line = true -> exists rest, line = 45 :: 32 :: rest.
Proof.
  change (lit "- ") with [45; 32].
  destruct line as [|c [|d rest]]; cbn [startswith]; try done.
  - by rewrite andb_false_r.
  - intros [->%N.eqb_eq [->%N.eqb_eq _]%andb_prop]%andb_prop. by exists rest.
Qed.

Lemma parse_lines_ok lines : forall posts,
  Forall post_ok posts -> Forall post_ok (parse_lines lines posts).
Proof.
  induction lines as [|line rest IH]; intros posts Hposts;
    cbn [parse_lines]; [done|].
  destruct (strip_trimmed line) as [_ Hlast].
  destruct (startswith (lit "- ") (strip line)) eqn:Hb.
  - apply IH, Forall_app. split; [done|]. apply Forall_singleton.
    apply startswith_bullet in Hb as [tl Hb]. rewrite Hb in Hlast |- *.
    simpl. destruct tl as [|c tl]; [by specialize (Hlast 32 eq_refl)|].
    split; [done|]. intros d Hd. apply Hlast.
    by rewrite !last_cons_cons.
  - destruct (_ && _) eqn:E; [|by apply IH].
    apply IH, Forall_app. split; [done|]. apply Forall_singleton.
    split; [|done]. intros Hnil. rewrite Hnil in E. by vm_compute in E.
Qed.

(** X17.  Whatever the reply, no post read off it is empty or ends with
    white space. *)
Theorem parse_lines_posts (text : str) :
  Forall post_ok (parse_lines (split nl text) []).
Proof. by apply parse_lines_ok. Qed.

(** *** Bullet lists *)

Lemma split_line l :
  nl ∉ l -> split nl l = [l].
Proof.
  induction l as [|c l IH]; [done|]. intros Hnl. cbn [split].
  apply not_elem_of_cons in Hnl as [Hc Hl].
  destruct (N.eqb_spec c nl) as [->|_]; [done|]. by rewrite IH.
Qed.

Lemma split_line_more l s :
  nl ∉ l -> split nl (l ++ nl :: s) = l :: split nl s.
Proof.
  induction l as [|c l IH]; intros Hnl.
  - cbn [app split]. by rewrite N.eqb_refl.
  - apply not_elem_of_cons in Hnl as [Hc Hl]. cbn [app split].
    destruct (N.eqb_spec c nl) as [->|_]; [done|]. by rewrite IH.
Qed.

Lemma split_join_lines lines :
  lines <> [] -> Forall (fun l => nl ∉ l) lines ->
  split nl (join_lines lines) = lines.
Proof.
  induction lines as [|l [|l' rest] IH]; intros Hne Hall; [done| |].
  - rewrite Forall_singleton in Hall. by apply split_line.
  - apply Forall_cons in Hall as [Hl Hall].
    change (join_lines (l :: l' :: rest))
      with (l ++ nl :: join_lines (l' :: rest)).
    rewrite split_line_more by done. by rewrite IH.
Qed.

Lemma lstrip_id c s : isspace c = false -> lstrip (c :: s) = c :: s.
Proof. simpl. by intros ->. Qed.

Lemma strip_id s :
  (forall c, head s = Some c -> isspace c = false) ->
  (forall c, last s = Some c -> isspace c = false) ->
  strip s = s.
Proof.
  intros Hhead Hlast. destruct s as [|c s]; [done|].
  unfold strip, rstrip. rewrite lstrip_id by (by apply Hhead).
  destruct (reverse (c :: s)) as [|d r] eqn:E.
  { apply (f_equal length) in E. rewrite length_reverse in E. done. }
  rewrite lstrip_id.
  - by rewrite <- E, reverse_involutive.
  - apply Hlast. by rewrite <- (reverse_involutive (c :: s)), E, last_reverse.
Qed.

Lemma parse_bullets titles : forall posts,
  Forall title titles ->
  parse_lines ((fun t => lit "- " ++ t) <$> titles) posts = posts ++ titles.
Proof.
  induction titles as [|t titles IH]; intros posts Hall;
    [by rewrite app_nil_r|].
  apply Forall_cons in Hall as [(Hne & _ & Hlast) Hall].
  rewrite fmap_cons. cbn [parse_lines].
  rewrite strip_id.
  - change (lit "- " ++ t) with (45 :: 32 :: t).
    change (lit "- ") with [45; 32]. cbn [startswith drop].
    rewrite !N.eqb_refl. cbn [andb]. rewrite IH by done.
    by rewrite <- app_assoc.
  - intros c. change (lit "- " ++ t) with (45 :: 32 :: t). simpl.
    by intros [= <-].
  - intros c. change (lit "- " ++ t) with (45 :: 32 :: t).
    destruct t as [|d t]; [done|]. rewrite !last_cons_cons. apply Hlast.
Qed.

Lemma split_bullets titles :
  titles <> [] -> Forall title titles ->
  split nl (join_lines ((fun t => lit "- " ++ t) <$> titles))
  = (fun t => lit "- " ++ t) <$> titles.
Proof.
  intros Hne Hall. apply split_join_lines.
  - by destruct titles.
  - apply Forall_fmap, (Forall_impl _ _ _ Hall). intros x (_ & Hnl & _).
    simpl. change (lit "- " ++ x) with (45 :: 32 :: x).
    rewrite !not_elem_of_cons. by split_and!.
Qed.

(** X18.  A reply that lists post titles as bullet lines, one ["- "] and
    title per line, is read back as exactly those titles, in order. *)
Theorem parse_lines_bullets (titles : list str) :
  Forall title titles ->
  parse_lines
    (split nl (join_lines ((fun t => lit "- " ++ t) <$> titles))) []
  = titles.
Proof.
  intros Hall. destruct titles as [|t titles]; [done|].
  rewrite split_bullets by done. by rewrite parse_bullets.
Qed.

(** *** The request functions *)

Lemma dict_get_raises v k dflt e :
  dict_get v k dflt = Raise e -> isinstance e (lit "Exception") = true.
Proof. destruct v; simpl; try done; by intros [= <-]. Qed.

Lemma iterate_raises v e :
  iterate v = Raise e -> isinstance e (lit "Exception") = true.
Proof. destruct v; simpl; try done; by intros [= <-]. Qed.

Lemma first_item_raises v e :
  first_item v = Raise e -> isinstance e (lit "Exception") = true.
Proof.
  destruct v as [| | |[|c s]|[|x l]|]; simpl; try done; by intros [= <-].
Qed.

Lemma split_lines_raises v e :
  split_lines v = Raise e -> isinstance e (lit "Exception") = true.
Proof. destruct v; simpl; try done; by intros [= <-]. Qed.

Lemma audio_path_of_raises v e :
  audio_path_of v = Raise e -> isinstance e (lit "Exception") = true.
Proof.
  destruct v; simpl; try done; try (by intros [= <-]). by case_match.
Qed.

Lemma last_model_text_raises events : forall found e,
  last_model_text events found = Raise e ->
  isinstance e (lit "Exception") = true.
Proof.
  induction events as [|event rest IH]; intros found e; cbn [last_model_text];
    [done|].
  destruct (dict_get event (lit "content") (JObj ∅)) as [content|x] eqn:E1;
    cbn [mbind result_bind]; [|intros [= <-]; by eapply dict_get_raises].
  destruct (dict_get content (lit "role") JNull) as [role|x] eqn:E2;
    cbn [mbind result_bind]; [|intros [= <-]; by eapply dict_get_raises].
  destruct (is_str role (lit "model")); [|by apply IH].
  destruct (dict_get content (lit "parts") _) as [parts|x] eqn:E3;
    cbn [mbind result_bind]; [|intros [= <-]; by eapply dict_get_raises].
  destruct (first_item parts) as [part|x] eqn:E4;
    cbn [mbind result_bind]; [|intros [= <-]; by eapply first_item_raises].
  destruct (dict_get part (lit "text") JNull) as [text|x] eqn:E5;
    cbn [mbind result_bind]; [|intros [= <-]; by eapply dict_get_raises].
  by apply IH.
Qed.

Lemma last_model_text_other events found :
  Forall other_event events -> last_model_text events found = Ok found.
Proof.
  induction 1 as [|event rest (o & c & -> & Hc & Hrole) _ IH]; [done|].
  cbn [last_model_text dict_get mbind result_bind]. rewrite Hc.
  cbn [dict_get mbind result_bind]. by rewrite Hrole.
Qed.



Lemma status_200 resp :
  status_code resp = 200%Z -> negb (status_code resp =? 200)%Z = false.
Proof. by intros ->. Qed.

Lemma status_not_200 resp :
  status_code resp <> 200%Z -> negb (status_code resp =? 200)%Z = true.
Proof. intros Hs. by destruct (Z.eqb_spec (status_code resp) 200). Qed.

Lemma startswith_app prefix s : startswith prefix (prefix ++ s) = true.
Proof.
  induction prefix as [|p prefix IH]; [by destruct s|].
  cbn [app startswith]. by rewrite N.eqb_refl, IH.
Qed.

Lemma replace_from_skip old new pre s :
  replace_from old new (length pre) (pre ++ s) = replace_from old new 0 s.
Proof. induction pre as [|c pre IH]; [done|]. apply IH. Qed.

Lemma replace_absent old new s :
  (forall i, startswith old (drop i s) = false) -> replace old new s = s.
Proof.
  unfold replace. induction s as [|c s IH]; intros Habs; [done|].
  cbn [replace_from]. pose proof (Habs 0%nat) as Hhere.
  cbn [drop] in Hhere. rewrite Hhere. f_equal. apply IH.
  intros i. apply (Habs (S i)).
Qed.

(** The path behind a [file://] URL. *)
Lemma audio_path_of_file_url path :
  (forall i, startswith (lit "file://") (drop i path) = false) ->
  audio_path_of (JStr (lit "file://" ++ path)) = Ok path.
Proof.
  intros Habs. cbn [audio_path_of]. rewrite startswith_app. f_equal.
  unfold replace.
  change (lit "file://" ++ path) with (102 :: lit "ile://" ++ path).
  cbn [replace_from].
  change (102 :: lit "ile://" ++ path) with (lit "file://" ++ path).
  rewrite startswith_app. cbn [app].
  change (length (lit "file://") - 1)%nat with (length (lit "ile://")).
  rewrite replace_from_skip. by apply replace_absent.
Qed.

Section Requests.
Variable post : str -> json -> result response.
Variable exists_ : str -> bool.

(** X19.  Whatever the API server does, [send_to_reddit_scout] returns
    either [None], leaving the stored posts as they were, or a non-empty
    list of posts, none of them empty, which it has stored; it writes no
    other entry of the session state, and it raises only what
    [requests.post] or [response.json] raised that is no [Exception]. *)
Theorem send_to_reddit_scout_outcome subreddit s :
  match send_to_reddit_scout post subreddit s with
  | (Ok (Some posts), s') =>
      posts <> [] /\ Forall post_ok posts /\ reddit_posts s' = posts /\
      user_id s' = user_id s /\ session_id s' = session_id s /\
      current_summary s' = current_summary s /\
      current_analysis s' = current_analysis s /\
      audio_file s' = audio_file s
  | (Ok None, s') => only_shown s s'
  | (Raise e, s') => isinstance e (lit "Exception") = false /\ s' = s
  end.
Proof.
  unfold send_to_reddit_scout, try_except.
  cbv [mbind ui_bind read lift mret ui_ret].
  destruct (post _ _) as [resp|e].
  2:{ destruct (isinstance e _) eqn:He; [|by destruct s].
      by cbn [show]. }
  destruct (negb _); [by cbn [show]|].
  destruct (response_json resp) as [events|e].
  2:{ destruct (isinstance e _) eqn:He; [|by destruct s]. by cbn [show]. }
  destruct (iterate events) as [evs|e] eqn:Eit.
  2:{ rewrite (iterate_raises _ _ Eit). by cbn [show]. }
  destruct (last_model_text evs JNull) as [posts_text|e] eqn:El.
  2:{ rewrite (last_model_text_raises _ _ _ El). by cbn [show]. }
  cbn [show]. destruct (json_truthy posts_text); [|by cbn [show]].
  destruct (split_lines posts_text) as [lines|e] eqn:Es.
  2:{ rewrite (split_lines_raises _ _ Es). by cbn [show]. }
  cbn [show].
  pose proof (parse_lines_ok lines [] (Forall_nil_2 _)) as Hok.
  destruct (parse_lines lines []) as [|p posts]; [by cbn [show]|].
  cbn [set_reddit_posts mret ui_ret]. by split_and!.
Qed.

(** X20.  A response with a status other than 200 is reported with its
    text and nothing else: [send_to_reddit_scout] returns [None] and the
    body of the response is not read. *)
Theorem send_to_reddit_scout_bad_status subreddit s resp :
  post REDDIT_SCOUT_URL
       (coordinator_request (user_id s) (session_id s)
          (lit "Show me the latest posts from r/" ++ subreddit)) = Ok resp ->
  status_code resp <> 200%Z ->
  send_to_reddit_scout post subreddit s =
  (Ok None,
   State (user_id s) (session_id s) (reddit_posts s) (current_summary s)
         (current_analysis s) (audio_file s)
         (shown s ++ [Error (lit "Error: " ++ response_text resp)])).
Proof.
  intros Hpost Hstatus. unfold send_to_reddit_scout, try_except.
  cbv [mbind ui_bind read lift mret ui_ret]. rewrite Hpost.
  by rewrite status_not_200.
Qed.

(** X21.  When the reply has no event with model-role content,
    [send_to_summarizer] returns [None] and stores it as the current
    summary, over whatever summary was there. *)
Theorem send_to_summarizer_no_model_reply text s resp events :
  post REDDIT_SCOUT_URL
       (coordinator_request (user_id s) (session_id s)
          (lit "Summarize this: " ++ text)) = Ok resp ->
  status_code resp = 200%Z ->
  response_json resp = Ok (JList events) ->
  Forall other_event events ->
  send_to_summarizer post text s =
  (Ok JNull,
   State (user_id s) (session_id s) (reddit_posts s) JNull
         (current_analysis s) (audio_file s) (shown s)).
Proof.
  intros Hpost Hstatus Hjson Hevents. unfold send_to_summarizer, try_except.
  cbv [mbind ui_bind read lift mret ui_ret]. rewrite Hpost.
  rewrite status_200 by done. rewrite Hjson. cbn [iterate].
  by rewrite last_model_text_other.
Qed.



(** X24.  When the analyzer replies with a JSON object (whose [data], if
    present, is an object too), [send_to_sentiment_analyzer] returns
    [data.sentiment_analysis] (an empty object when absent) and stores it
    with the reply's message (empty when absent) as the current analysis;
    nothing is shown. *)
Theorem send_to_sentiment_analyzer_reply text s resp o d :
  post SENTIMENT_ANALYZER_URL
       (a2a_payload (user_id s) (session_id s) text) = Ok resp ->
  status_code resp = 200%Z ->
  response_json resp = Ok (JObj o) ->
  default (JObj ∅) (o !! lit "data") = JObj d ->
  send_to_sentiment_analyzer post text s =
  (Ok (default (JObj ∅) (d !! lit "sentiment_analysis")),
   State (user_id s) (session_id s) (reddit_posts s) (current_summary s)
         (JObj (<[lit "message" := default (JStr []) (o !! lit "message")]>
               (<[lit "data" :=
                    default (JObj ∅) (d !! lit "sentiment_analysis")]> ∅)))
         (audio_file s) (shown s)).
Proof.
  intros Hpost Hstatus Hjson Hdata.
  unfold send_to_sentiment_analyzer, try_except.
  cbv [mbind ui_bind read lift mret ui_ret]. rewrite Hpost.
  rewrite status_200 by done. rewrite Hjson. cbn [dict_get]. by rewrite Hdata.
Qed.

(** X25.  Whatever the speaker does, [send_to_speaker] returns a path only
    when a file exists at it, and then stores it as the audio file; in
    every other case the stored audio file is left as it was.  It writes
    no other entry of the session state, and raises only what
    [requests.post] or [response.json] raised that is no [Exception]. *)
Theorem send_to_speaker_outcome text s :
  match send_to_speaker post exists_ text s with
  | (Ok (Some path), s') =>
      exists_ path = true /\ audio_file s' = Some path /\
      user_id s' = user_id s /\ session_id s' = session_id s /\
      reddit_posts s' = reddit_posts s /\
      current_summary s' = current_summary s /\
      current_analysis s' = current_analysis s /\ shown s' = shown s
  | (Ok None, s') => only_shown s s'
  | (Raise e, s') => isinstance e (lit "Exception") = false /\ s' = s
  end.
Proof.
  unfold send_to_speaker, try_except.
  cbv [mbind ui_bind read lift mret ui_ret].
  destruct (post _ _) as [resp|e].
  2:{ destruct (isinstance e _) eqn:He; [|by destruct s]. by cbn [show]. }
  destruct (negb _); [by cbn [show]|].
  destruct (response_json resp) as [response_data|e].
  2:{ destruct (isinstance e _) eqn:He; [|by destruct s]. by cbn [show]. }
  destruct (dict_get response_data (lit "message") _) as [message|e] eqn:E1.
  2:{ rewrite (dict_get_raises _ _ _ _ E1). by cbn [show]. }
  destruct (dict_get response_data (lit "data") _) as [data|e] eqn:E2.
  2:{ rewrite (dict_get_raises _ _ _ _ E2). by cbn [show]. }
  destruct (dict_get data (lit "audio_url") _) as [audio_url|e] eqn:E3.
  2:{ rewrite (dict_get_raises _ _ _ _ E3). by cbn [show]. }
  destruct (json_truthy audio_url); [|by destruct s].
  destruct (audio_path_of audio_url) as [audio_path|e] eqn:E4.
  2:{ rewrite (audio_path_of_raises _ _ E4). by cbn [show]. }
  destruct (exists_ audio_path) eqn:Hex; [|by destruct s].
  cbn [set_audio_file]. by split_and!.
Qed.

(** X26.  When the speaker's reply carries a [file://] URL of a file that
    exists, [send_to_speaker] returns the path behind the URL and stores
    it as the audio file. *)
Theorem send_to_speaker_file_url text s resp o d path :
  post SPEAKER_URL (a2a_payload (user_id s) (session_id s) text) = Ok resp ->
  status_code resp = 200%Z ->
  response_json resp = Ok (JObj o) ->
  o !! lit "data" = Some (JObj d) ->
  d !! lit "audio_url" = Some (JStr (lit "file://" ++ path)) ->
  (forall i, startswith (lit "file://") (drop i path) = false) ->
  exists_ path = true ->
  send_to_speaker post exists_ text s =
  (Ok (Some path),
   State (user_id s) (session_id s) (reddit_posts s) (current_summary s)
         (current_analysis s) (Some path) (shown s)).
Proof.
  intros Hpost Hstatus Hjson Hdata Hurl Habs Hex.
  unfold send_to_speaker, try_except.
  cbv [mbind ui_bind read lift mret ui_ret]. rewrite Hpost.
  rewrite status_200 by done. rewrite Hjson. cbn [dict_get].
  rewrite Hdata. cbn [default from_option id dict_get].
  rewrite Hurl. cbn [default from_option id].
  change (json_truthy (JStr (lit "file://" ++ path))) with true. cbn iota.
  rewrite audio_path_of_file_url by done. by rewrite Hex.
Qed.

End Requests.

End DashboardFacts.

Lemma parse_lines_bullets_witness :
  Dashboard.parse_lines
    (Py.split Py.nl
       (Notions.join_lines
          ((fun t => Py.lit "- " ++ t) <$>
           [Py.lit "Godot 4.3 released"; Py.lit "My first game"]))) []
  = [Py.lit "Godot 4.3 released"; Py.lit "My first game"].
Proof.
  apply (DashboardFacts.parse_lines_bullets
           [Py.lit "Godot 4.3 released"; Py.lit "My first game"]).
  repeat (apply Forall_cons; split; [|]); [| |apply Forall_nil_2].
  - split_and!; [done| |].
    + vm_compute. intros Hin. by repeat (apply elem_of_cons in Hin as [Hin|Hin]; [done|]); apply elem_of_nil in Hin.
    + vm_compute. by intros c [= <-].
  - split_and!; [done| |].
    + vm_compute. intros Hin. by repeat (apply elem_of_cons in Hin as [Hin|Hin]; [done|]); apply elem_of_nil in Hin.
    + vm_compute. by intros c [= <-].
Defined.
Lemma send_to_reddit_scout_bad_status_witness :
  Dashboard.send_to_reddit_scout (DashboardSamples.answering DashboardSamples.server_error)
    (Py.lit "gamedev") DashboardSamples.fresh_state
  = (Py.Ok None,
     Dashboard.State (Py.lit "user-1") (Py.lit "session-1") []
       (App.JStr []) (App.JObj ∅) None
       [Dashboard.Error (Py.lit "Error: Internal Server Error")]).
Proof.
  apply (DashboardFacts.send_to_reddit_scout_bad_status
           (DashboardSamples.answering DashboardSamples.server_error) (Py.lit "gamedev")
           DashboardSamples.fresh_state DashboardSamples.server_error).
  - reflexivity.
  - vm_compute. discriminate.
Defined.

Lemma send_to_summarizer_no_model_reply_witness :
  Dashboard.send_to_summarizer
    (DashboardSamples.answering (DashboardSamples.events_response [DashboardSamples.user_event]))
    (Py.lit "My first game") DashboardSamples.used_state
  = (Py.Ok App.JNull,
     Dashboard.State (Py.lit "user-1") (Py.lit "session-1")
       [Py.lit "My first game"] App.JNull (App.JObj ∅)
       (Some (Py.lit "/tmp/old.mp3")) []).
Proof.
  apply (DashboardFacts.send_to_summarizer_no_model_reply
           (DashboardSamples.answering
              (DashboardSamples.events_response [DashboardSamples.user_event]))
           (Py.lit "My first game") DashboardSamples.used_state
           (DashboardSamples.events_response [DashboardSamples.user_event])
           [DashboardSamples.user_event]).
  - reflexivity.
  - reflexivity.
  - reflexivity.
  - apply Forall_cons; split; [|apply Forall_nil_2].
    exists DashboardSamples.user_event_fields, DashboardSamples.user_content.
    split; [reflexivity|]. split; vm_compute; reflexivity.
Defined.



Lemma send_to_sentiment_analyzer_reply_witness :
  Dashboard.send_to_sentiment_analyzer
    (DashboardSamples.answering (DashboardSamples.object_response DashboardSamples.analyzer_reply))
    (Py.lit "My first game") DashboardSamples.fresh_state
  = (Py.Ok (default (App.JObj ∅)
              (DashboardSamples.analyzer_data !! Py.lit "sentiment_analysis")),
     Dashboard.State (Py.lit "user-1") (Py.lit "session-1") [] (App.JStr [])
       (App.JObj
          (<[Py.lit "message" :=
               default (App.JStr [])
                 (DashboardSamples.analyzer_reply !! Py.lit "message")]>
           (<[Py.lit "data" :=
                default (App.JObj ∅)
                  (DashboardSamples.analyzer_data !! Py.lit "sentiment_analysis")]>
              ∅)))
       None []).
Proof.
  apply (DashboardFacts.send_to_sentiment_analyzer_reply
           (DashboardSamples.answering
              (DashboardSamples.object_response DashboardSamples.analyzer_reply))
           (Py.lit "My first game") DashboardSamples.fresh_state
           (DashboardSamples.object_response DashboardSamples.analyzer_reply)
           DashboardSamples.analyzer_reply DashboardSamples.analyzer_data).
  - reflexivity.
  - reflexivity.
  - reflexivity.
  - vm_compute. reflexivity.
Defined.

Lemma send_to_speaker_file_url_witness :
  Dashboard.send_to_speaker
    (DashboardSamples.answering (DashboardSamples.object_response DashboardSamples.speaker_reply))
    DashboardSamples.only_speech (Py.lit "Two posts about game engines.")
    DashboardSamples.used_state
  = (Py.Ok (Some (Py.lit "/tmp/speech.mp3")),
     Dashboard.State (Py.lit "user-1") (Py.lit "session-1")
       [Py.lit "My first game"] (App.JStr (Py.lit "An older summary"))
       (App.JObj ∅) (Some (Py.lit "/tmp/speech.mp3")) []).
Proof.
  apply (DashboardFacts.send_to_speaker_file_url
           (DashboardSamples.answering
              (DashboardSamples.object_response DashboardSamples.speaker_reply))
           DashboardSamples.only_speech (Py.lit "Two posts about game engines.")
           DashboardSamples.used_state
           (DashboardSamples.object_response DashboardSamples.speaker_reply)
           DashboardSamples.speaker_reply DashboardSamples.speaker_data
           (Py.lit "/tmp/speech.mp3")).
  - reflexivity.
  - reflexivity.
  - reflexivity.
  - vm_compute. reflexivity.
  - vm_compute. reflexivity.
  - intros i. do 16 (destruct i as [|i]; [vm_compute; reflexivity|]).
    rewrite drop_ge by (vm_compute; lia). reflexivity.
  - vm_compute. reflexivity.
Defined.
